(** * Surplus equipment scraper: a shallow embedding of scraper.py and main.py

    The development follows the two source files.  Python [str] values are
    modelled by [string] read as sequences of code points below 256; on that
    range [str.lower], [str.strip], [str.split] and the classes [\s], [\d]
    and [.] of the [re] module are the functions defined in [PyStr] and
    [Re].  Parsed documents (what [BeautifulSoup(...)] returns) are trees of
    [node]; the network and [urllib.parse.urljoin] are parameters. *)

From Stdlib Require Import ZArith Ascii String DecimalString List Lia Bool.
From stdpp Require Import gmap strings list fin_maps.

Open Scope string_scope.
Open Scope Z_scope.

(* ===================================================================== *)
(** ** Python strings                                                    *)
(* ===================================================================== *)

Module PyStr.

Definition code (c : ascii) : N := N_of_ascii c.

(** [c.isspace()] on the code points below 256. *)
Definition isspace (c : ascii) : bool :=
  let n := code c in
  ((9 <=? n) && (n <=? 13) || (28 <=? n) && (n <=? 32)
   || (n =? 133) || (n =? 160))%N.

Definition isdigit (c : ascii) : bool :=
  let n := code c in ((48 <=? n) && (n <=? 57))%N.

(** [c.lower()]: the letters A-Z and the Latin-1 capitals. *)
Definition lower_char (c : ascii) : ascii :=
  let n := code c in
  if ((65 <=? n) && (n <=? 90)
      || (192 <=? n) && (n <=? 222) && negb (n =? 215))%N
  then ascii_of_N (n + 32) else c.

Fixpoint lower (s : string) : string :=
  match s with
  | EmptyString => EmptyString
  | String c t => String (lower_char c) (lower t)
  end.

Definition truthy (s : string) : bool :=
  match s with EmptyString => false | _ => true end.

Definition len (s : string) : nat := String.length s.

(** [s.lstrip()], [s.rstrip()], [s.strip()]. *)
Fixpoint lstrip (s : string) : string :=
  match s with
  | String c t => if isspace c then lstrip t else s
  | EmptyString => EmptyString
  end.

Fixpoint rstrip (s : string) : string :=
  match s with
  | EmptyString => EmptyString
  | String c t =>
      match rstrip t with
      | EmptyString => if isspace c then EmptyString else String c EmptyString
      | t' => String c t'
      end
  end.

Definition strip (s : string) : string := rstrip (lstrip s).

(** [p in s] for strings: [prefix] is [s.startswith(p)]. *)
Fixpoint startswith (p s : string) : bool :=
  match p, s with
  | EmptyString, _ => true
  | String a p', String b s' => if Ascii.eqb a b then startswith p' s' else false
  | String _ _, EmptyString => false
  end.

Fixpoint contains (p s : string) : bool :=
  startswith p s ||
  match s with
  | EmptyString => false
  | String _ t => contains p t
  end.

Fixpoint drop (n : nat) (s : string) : string :=
  match n, s with
  | O, _ => s
  | S n', String _ t => drop n' t
  | S _, EmptyString => EmptyString
  end.

Fixpoint take (n : nat) (s : string) : string :=
  match n, s with
  | S n', String c t => String c (take n' t)
  | _, _ => EmptyString
  end.

(** [s.split(sep)[0]] for a one-character separator: the text before the
    first occurrence of [sep], the whole string when there is none. *)
Fixpoint split_head (sep : ascii) (s : string) : string :=
  match s with
  | EmptyString => EmptyString
  | String c t => if Ascii.eqb c sep then EmptyString else String c (split_head sep t)
  end.

(** [s.split()]: the maximal runs of non-space characters. *)
Fixpoint split_ws_aux (cur : string) (s : string) : list string :=
  match s with
  | EmptyString => if truthy cur then [cur] else []
  | String c t =>
      if isspace c
      then (if truthy cur then [cur] else []) ++ split_ws_aux EmptyString t
      else split_ws_aux (cur ++ String c EmptyString) t
  end.

Definition split_ws (s : string) : list string := split_ws_aux EmptyString s.

(** [sep.join(l)]. *)
Definition join (sep : string) (l : list string) : string := String.concat sep l.

(** [s.replace(old, new)] for a non-empty [old]: non-overlapping
    occurrences, leftmost first. *)
Fixpoint replace_aux (fuel : nat) (old new s : string) : string :=
  match fuel with
  | O => s
  | S fuel' =>
      match s with
      | EmptyString => EmptyString
      | String c t =>
          if startswith old s
          then new ++ replace_aux fuel' old new (drop (len old) s)
          else String c (replace_aux fuel' old new t)
      end
  end.

Definition replace (old new s : string) : string :=
  replace_aux (S (len s)) old new s.

(** [str(n)] for a natural number. *)
Definition of_nat (n : nat) : string := NilZero.string_of_uint (Nat.to_uint n).

End PyStr.

(* ===================================================================== *)
(** ** The fragment of [re] the scraper uses                             *)
(* ===================================================================== *)

Module Re.

(** Patterns.  [Star] is the greedy [*]; [Bol] and [Eol] are [^] and [$]
    without [re.MULTILINE]. *)
Inductive regex : Type :=
| Eps
| Chr (p : ascii -> bool)
| Bol
| Eol
| Seq (r1 r2 : regex)
| Alt (r1 r2 : regex)
| Star (r : regex).

Definition Plus (r : regex) : regex := Seq r (Star r).

(** [.] without [re.DOTALL]. *)
Definition dot : regex := Chr (fun c => negb (Ascii.eqb c "010"%char)).
Definition space : regex := Chr PyStr.isspace.
(** [\d] on the code points below 256, where its only members are the
    digits 0 to 9; on other code points Python's class has further
    decimal digits, which strings of this development cannot hold. *)
Definition digit : regex := Chr PyStr.isdigit.

(** A literal, case-sensitive or under [re.IGNORECASE]. *)
Fixpoint lit (s : string) : regex :=
  match s with
  | EmptyString => Eps
  | String c t => Seq (Chr (Ascii.eqb c)) (lit t)
  end.

Fixpoint lit_i (s : string) : regex :=
  match s with
  | EmptyString => Eps
  | String c t =>
      Seq (Chr (fun x => Ascii.eqb (PyStr.lower_char x) (PyStr.lower_char c))) (lit_i t)
  end.

(** [$]: at the end, or just before a final newline. *)
Definition at_eol (s : string) : bool :=
  match s with
  | EmptyString => true
  | String c EmptyString => Ascii.eqb c "010"%char
  | _ => false
  end.

(** Backtracking matcher.  [bol] tells whether the position is the start
    of the subject; [k] is the continuation, given the rest of the
    subject; the result is what the first successful continuation
    returns.  Alternatives are tried left to right and [Star] takes as
    many iterations as it can before giving one back. *)
Fixpoint rmatch {A : Type} (r : regex) (bol : bool) (s : string)
    (k : bool -> string -> option A) : option A :=
  match r with
  | Eps => k bol s
  | Chr p =>
      match s with
      | String c t => if p c then k false t else None
      | EmptyString => None
      end
  | Bol => if bol then k bol s else None
  | Eol => if at_eol s then k bol s else None
  | Seq r1 r2 => rmatch r1 bol s (fun b s' => rmatch r2 b s' k)
  | Alt r1 r2 =>
      match rmatch r1 bol s k with
      | Some x => Some x
      | None => rmatch r2 bol s k
      end
  | Star r1 =>
      (fix star (n : nat) (b : bool) (s0 : string) : option A :=
         match n with
         | O => k b s0
         | S n' =>
             match rmatch r1 b s0
                     (fun b' s' =>
                        if (String.length s' <? String.length s0)%nat
                        then star n' b' s' else None) with
             | Some x => Some x
             | None => k b s0
             end
         end) (String.length s) bol s
  end.

(** The rest of the subject after a match anchored at the current
    position. *)
Definition match_here (r : regex) (bol : bool) (s : string) : option string :=
  rmatch r bol s (fun _ rest => Some rest).

(** [re.search(r, s)]: the text before the leftmost match, the match and
    the text after it. *)
Fixpoint search_aux (r : regex) (bol : bool) (s : string) : option (string * string * string) :=
  match match_here r bol s with
  | Some rest =>
      Some (EmptyString, PyStr.take (String.length s - String.length rest) s, rest)
  | None =>
      match s with
      | EmptyString => None
      | String c t =>
          match search_aux r false t with
          | Some (pre, m, post) => Some (String c pre, m, post)
          | None => None
          end
      end
  end.

Definition search (r : regex) (s : string) : option (string * string * string) :=
  search_aux r true s.

Definition matches (r : regex) (s : string) : bool :=
  match search r s with Some _ => true | None => false end.

(** [re.sub(r, repl, s)] for a replacement without group references. *)
Fixpoint sub_aux (fuel : nat) (r : regex) (repl : string) (bol : bool) (s : string) : string :=
  match fuel with
  | O => s
  | S fuel' =>
      let step :=
        match s with
        | EmptyString => EmptyString
        | String c t => String c (sub_aux fuel' r repl false t)
        end in
      match match_here r bol s with
      | Some rest =>
          if (String.length rest <? String.length s)%nat
          then repl ++ sub_aux fuel' r repl false rest
          else repl ++ step
      | None => step
      end
  end.

Definition sub (r : regex) (repl : string) (s : string) : string :=
  sub_aux (S (String.length s)) r repl true s.

End Re.

(* ===================================================================== *)
(** ** Parsed documents                                                  *)
(* ===================================================================== *)

(** A node of the tree BeautifulSoup builds: a navigable string, or a tag
    with its name (lower case, as html.parser gives it), the tokens of its
    [class] attribute, its other attributes and its children.  [Text]
    stands for the strings [get_text] collects. *)
#[warnings="-register-all"] Inductive node : Type :=
| Text (s : string)
| Elem (tag : string) (classes : list string) (attrs : list (string * string))
       (children : list node).

Module Soup.

Definition is_tag (n : node) : bool :=
  match n with Elem _ _ _ _ => true | Text _ => false end.

Definition has_tag (t : string) (n : node) : bool :=
  match n with Elem t' _ _ _ => String.eqb t t' | Text _ => false end.

Definition has_class (c : string) (n : node) : bool :=
  match n with
  | Elem _ cs _ _ => existsb (String.eqb c) cs
  | Text _ => false
  end.

(** [tag.get(name)]. *)
Fixpoint assoc (name : string) (l : list (string * string)) : option string :=
  match l with
  | [] => None
  | (k, v) :: l' => if String.eqb name k then Some v else assoc name l'
  end.

Definition get (name : string) (n : node) : option string :=
  match n with Elem _ _ a _ => assoc name a | Text _ => None end.

(** [tag.descendants]: every node below [n], in document order. *)
Fixpoint descendants (n : node) : list node :=
  match n with
  | Text _ => []
  | Elem _ _ _ cs => flat_map (fun c => c :: descendants c) cs
  end.

(** [tag.find_all(...)] and [tag.find(...)] for a test on tags. *)
Definition find_all (p : node -> bool) (n : node) : list node :=
  filter (fun d => p d = true) (descendants n).

Definition find (p : node -> bool) (n : node) : option node :=
  head (find_all p n).

(** [soup.select('a.c')], a compound selector: tag name and class. *)
Definition sel (t c : string) (n : node) : bool := has_tag t n && has_class c n.

(** [soup.select('t1.c1 t2.c2')], the descendant combinator: the nodes
    matching [inner] that lie below a node matching [outer]. *)
Fixpoint select_in (outer inner : node -> bool) (inside : bool) (n : node) : list node :=
  match n with
  | Text _ => []
  | Elem _ _ _ cs =>
      flat_map (fun c =>
                  ((if inside && inner c then [c] else [])
                   ++ select_in outer inner (inside || outer c) c)%list) cs
  end.

Definition select_desc (outer inner : node -> bool) (soup : node) : list node :=
  select_in outer inner false soup.

(** [tag.get_text(strip=True)]: the strings below the tag, each stripped,
    the empty ones dropped, concatenated. *)
Fixpoint strings (n : node) : list string :=
  match n with
  | Text s => [s]
  | Elem _ _ _ cs => flat_map strings cs
  end.

Definition get_text (n : node) : string :=
  PyStr.join "" (filter (fun s => PyStr.truthy s = true) (map PyStr.strip (strings n))).

End Soup.

(* ===================================================================== *)
(** ** scraper.py                                                        *)
(* ===================================================================== *)

(** The dictionary [listing_data]; [P] is the type of the [pictures] entry,
    a list of URLs in the scraper and one joined string once main.py has
    flattened it. *)
Record listing_data (P : Type) : Type := mk_listing {
  title : string;
  condition : string;
  location : string;
  category : string;
  listing_type : string;
  price : string;
  pictures : P;
  manufacturer : string;
  model : string;
  year_of_manufacturer : string;
  description : string;
  url : string;
  item_id : string
}.

Arguments mk_listing {P}.
Arguments title {P}.
Arguments condition {P}.
Arguments location {P}.
Arguments category {P}.
Arguments listing_type {P}.
Arguments price {P}.
Arguments pictures {P}.
Arguments manufacturer {P}.
Arguments model {P}.
Arguments year_of_manufacturer {P}.
Arguments description {P}.
Arguments url {P}.
Arguments item_id {P}.

Module Scraper.

Import Re.

Definition BASE_URL : string := "https://surplus.infineon.com/".

(** [extract_text(element)]. *)
Definition extract_text (element : option node) : string :=
  match element with
  | Some e => Soup.get_text e
  | None => ""
  end.

(** The patterns of [extract_table_value], in source order. *)
Definition re_offered_at : regex :=
  Seq Bol (Seq (Alt (lit_i "Offered") (lit_i "Wanted"))
          (Seq (Plus space) (Seq (lit_i "at") (Seq (Star dot) Eol)))).
Definition re_serial : regex :=
  Seq (lit_i "Serial") (Seq (Plus space) (Seq (lit_i "Number") (Seq (Star dot) Eol))).
Definition re_model : regex := Seq (lit_i "Model") (Seq (Star dot) Eol).
Definition re_manufacture : regex := Seq (lit_i "Manufacture") (Seq (Star dot) Eol).
Definition re_manufacturer : regex := Seq (lit_i "Manufacturer") (Seq (Star dot) Eol).
Definition re_long_number : regex :=
  Seq digit (Seq digit (Seq digit (Seq digit (Seq digit
    (Seq (Star digit) (Seq (Star dot) Eol)))))).

(** The clean-up of a table value, lines 65-72 of scraper.py. *)
Definition clean_value (value : string) : string :=
  let value := sub re_offered_at "" value in
  let value := sub re_serial "" value in
  let value := sub re_model "" value in
  let value := sub re_manufacture "" value in
  let value := sub re_manufacturer "" value in
  let value := sub re_long_number "" value in
  let value := PyStr.join " " (PyStr.split_ws value) in
  PyStr.strip value.

(** [extract_table_value(soup, label)]: the first row with at least two
    cells whose first cell's text is or contains the label and whose value
    is not empty gives the cleaned value. *)
Definition is_cell (n : node) : bool := Soup.has_tag "td" n || Soup.has_tag "th" n.

Definition or_else {A : Type} (a b : option A) : option A :=
  match a with Some _ => a | None => b end.

Fixpoint extract_table_value_rows (rows : list node) (label : string) : string :=
  match rows with
  | [] => ""
  | row :: rows' =>
      match Soup.find_all is_cell row with
      | c0 :: c1 :: _ =>
          let label_text := PyStr.lower (extract_text (Some c0)) in
          if String.eqb label_text (PyStr.lower label)
             || PyStr.contains (PyStr.lower label) label_text
          then
            let value_elem :=
              or_else (Soup.find (Soup.has_class "txt") c1) (Soup.find (Soup.has_tag "td") c1) in
            let value :=
              match value_elem with
              | Some e => extract_text (Some e)
              | None => extract_text (Some c1)
              end in
            if PyStr.truthy value then clean_value value
            else extract_table_value_rows rows' label
          else extract_table_value_rows rows' label
      | _ => extract_table_value_rows rows' label
      end
  end.

Definition extract_table_value (soup : node) (label : string) : string :=
  extract_table_value_rows (Soup.find_all (Soup.has_tag "tr") soup) label.

(** *** [scrape_listing]: the title *)

Definition re_title_prefix : regex :=
  Seq Bol (Seq (Plus digit) (Seq (Plus space)
    (Seq (Alt (lit_i "Offered") (lit_i "Wanted"))
       (Seq (Plus space) (Seq (lit_i "at") (Star dot)))))).

Definition SITE_NAME : string := "Infineon Technologies AG - Equipment Trade".

(** Option 1: [h1.HL1 span.HL1]. *)
Definition title_option1 (soup : node) : string :=
  match head (Soup.select_desc (Soup.sel "h1" "HL1") (Soup.sel "span" "HL1") soup) with
  | Some title_elem =>
      PyStr.strip (sub re_title_prefix "" (extract_text (Some title_elem)))
  | None => ""
  end.

(** Option 2: the [title] tag, tried when the title is still empty. *)
Definition title_option2 (soup : node) (title : string) : string :=
  if PyStr.truthy title then title
  else match Soup.find (Soup.has_tag "title") soup with
       | Some title_tag =>
           PyStr.strip (PyStr.replace SITE_NAME "" (extract_text (Some title_tag)))
       | None => title
       end.

(** Option 3: the first [b] or [strong] with a long enough text. *)
Definition is_bold (n : node) : bool := Soup.has_tag "b" n || Soup.has_tag "strong" n.

Definition bold_ok (text : string) : bool :=
  PyStr.truthy text && (10 <? PyStr.len text)%nat
  && negb (PyStr.contains "offered" (PyStr.lower text))
  && negb (PyStr.contains "wanted" (PyStr.lower text)).

Definition title_option3 (soup : node) (title : string) : string :=
  if PyStr.truthy title then title
  else match List.find bold_ok (map (fun b => extract_text (Some b)) (Soup.find_all is_bold soup)) with
       | Some text => text
       | None => title
       end.

(** *** the listing type and the description *)

Definition extract_listing_type (soup : node) : string :=
  match head (Soup.select_desc (Soup.sel "h2" "HL") (Soup.sel "span" "HL") soup) with
  | Some type_elem =>
      let type_text := PyStr.lower (extract_text (Some type_elem)) in
      if PyStr.contains "offered" type_text then "For Sale"
      else if PyStr.contains "wanted" type_text then "Wanted"
      else ""
  | None => ""
  end.

Definition description_ok (text : string) : bool :=
  PyStr.truthy text && (20 <? PyStr.len text)%nat
  && negb (PyStr.contains "copyright" (PyStr.lower text)).

Definition extract_description (soup : node) : string :=
  match List.find description_ok
          (map (fun p => extract_text (Some p)) (Soup.find_all (Soup.has_tag "p") soup)) with
  | Some text => text
  | None => ""
  end.

Definition re_spaces : regex := Plus space.

(** *** the pictures

    The state of the three image passes: the list [listing_data['pictures']]
    and the set [seen_urls]. *)
Section Pictures.

(** [urllib.parse.urljoin], a library function, on the references it
    resolves.  On a few malformed references (["//["] is one) the library
    raises [ValueError]; nothing in [scrape_listing] catches it, and the
    call then returns no record.  What follows describes the records that
    are returned. *)
Variable urljoin : string -> string -> string.

Definition pics : Type := list string * gset string.

(** The body shared by the three passes once the membership test is
    done: strip the query, resolve, append, remember the stripped
    source. *)
Definition add_picture (src : string) (st : pics) : pics :=
  let src := PyStr.split_head "?" src in
  let full_url := urljoin BASE_URL src in
  (st.1 ++ [full_url], {[ src ]} ∪ st.2)%list.

(** Method 1: [img.imgprev]. *)
Definition pictures_main (soup : node) (st : pics) : pics :=
  match head (Soup.find_all (Soup.sel "img" "imgprev") soup) with
  | Some main_img =>
      match Soup.get "src" main_img with
      | Some src => if PyStr.truthy src then add_picture src st else st
      | None => st
      end
  | None => st
  end.

(** Method 2: the [a.addlImage] links. *)
Definition pictures_addl_step (st : pics) (link : node) : pics :=
  match Soup.get "href" link with
  | Some href =>
      if PyStr.truthy href && negb (bool_decide (href ∈ st.2))
      then add_picture href st else st
  | None => st
  end.

Definition pictures_addl (soup : node) (st : pics) : pics :=
  fold_left pictures_addl_step (Soup.find_all (Soup.sel "a" "addlImage") soup) st.

(** Method 3: every [img] whose [src] matches [clientresources]. *)
Definition re_clientresources : regex := lit_i "clientresources".

Definition re_image_ext : regex :=
  Seq (lit ".")
    (Alt (lit_i "jpg") (Alt (lit_i "jpeg") (Alt (lit_i "png")
       (Alt (lit_i "gif") (Alt (lit_i "bmp") (lit_i "webp")))))).

Definition is_resource_img (n : node) : bool :=
  Soup.has_tag "img" n &&
  match Soup.get "src" n with
  | Some src => matches re_clientresources src
  | None => false
  end.

Definition pictures_fallback_step (st : pics) (img : node) : pics :=
  match Soup.get "src" img with
  | Some src =>
      if PyStr.truthy src && negb (bool_decide (src ∈ st.2))
      then
        if matches re_image_ext (PyStr.split_head "?" src)
        then add_picture src st else st
      else st
  | None => st
  end.

Definition pictures_fallback (soup : node) (st : pics) : pics :=
  fold_left pictures_fallback_step (Soup.find_all is_resource_img soup) st.

Definition extract_pictures (soup : node) : list string :=
  (pictures_fallback soup (pictures_addl soup (pictures_main soup ([], ∅)))).1.

End Pictures.

(** *** the table

    [all_data] is a dictionary from labels to values, filled row by row. *)
Definition row_pair (row : node) : option (string * string) :=
  match Soup.find_all is_cell row with
  | c0 :: c1 :: _ =>
      let label_elem := default c0 (Soup.find (Soup.has_class "txtb") c0) in
      let label_text := PyStr.lower (PyStr.strip (extract_text (Some label_elem))) in
      let value_elem := default c1 (Soup.find (Soup.has_class "txt") c1) in
      let value_text := PyStr.strip (extract_text (Some value_elem)) in
      if PyStr.truthy label_text && PyStr.truthy value_text
      then Some (label_text, value_text) else None
  | _ => None
  end.

Definition table_step (all_data : gmap string string) (row : node) : gmap string string :=
  match row_pair row with
  | Some (label_text, value_text) => <[ label_text := value_text ]> all_data
  | None => all_data
  end.

Definition table_rows (soup : node) : list node := Soup.find_all (Soup.has_tag "tr") soup.

Definition table_data (soup : node) : gmap string string :=
  fold_left table_step (table_rows soup) ∅.

(** [all_data.get(key, '')]. *)
Definition dict_get (d : gmap string string) (key : string) : string :=
  default "" (d !! key).

(** *** the category *)
Definition extract_category (soup : node) : string :=
  let category_links := Soup.find_all (Soup.sel "a" "menubar") soup in
  let categories :=
    filter (fun c => PyStr.truthy c = true)
           (map (fun a => extract_text (Some a)) category_links) in
  let categories :=
    filter (fun c => negb (String.eqb c "View" || String.eqb c "Search-by-Specs") = true)
           categories in
  match categories with
  | [] => ""
  | _ => PyStr.join " > " categories
  end.

(** *** [scrape_listing] on a fetched document *)
Definition scrape_soup (urljoin : string -> string -> string)
    (listing_url item_no : string) (soup : node) : listing_data (list string) :=
  let title := title_option1 soup in
  let title := title_option2 soup title in
  let title := title_option3 soup title in
  let all_data := table_data soup in
  {| title := PyStr.strip (sub re_spaces " " title);
     condition := dict_get all_data "condition";
     location := "Regensburg, Germany";
     category := extract_category soup;
     listing_type := extract_listing_type soup;
     price := dict_get all_data "unit price";
     pictures := extract_pictures urljoin soup;
     manufacturer := dict_get all_data "manufacturer";
     model := dict_get all_data "model";
     year_of_manufacturer := dict_get all_data "year of manufacture";
     description := PyStr.strip (sub re_spaces " " (extract_description soup));
     url := listing_url;
     item_id := item_no |}.

(** *** pagination *)

(** [item_numbers[:max_items]], also for a negative bound. *)
Definition slice_to {A : Type} (l : list A) (n : Z) : list A :=
  if 0 <=? n then firstn (Z.to_nat n) l
  else firstn (Z.to_nat (Z.of_nat (length l) + n)) l.

(** [re.search(r'ItemNo=(\d+)', href)] and its group 1, the digits after
    the seven characters of [ItemNo=]. *)
Definition re_item_no : regex := Seq (lit "ItemNo=") (Plus digit).

Definition item_no_of (href : string) : option string :=
  match search re_item_no href with
  | Some (_, m, _) => Some (PyStr.drop 7 m)
  | None => None
  end.

Definition link_href (link : node) : string := default "" (Soup.get "href" link).

(** The body of the [for link in item_links] loop. *)
Definition add_item (item_numbers : list string) (link : node) : list string :=
  match item_no_of (link_href link) with
  | Some item_no =>
      if bool_decide (item_no ∈ item_numbers) then item_numbers
      else item_numbers ++ [item_no]
  | None => item_numbers
  end.

Definition items_per_page : nat := 100.

(** [if max_items and len(item_numbers) >= max_items]. *)
Definition max_reached (max_items : option Z) (item_numbers : list string) : option Z :=
  match max_items with
  | Some m => if negb (m =? 0) && (m <=? Z.of_nat (length item_numbers)) then Some m else None
  | None => None
  end.

(** What one turn of the [while True] loop does. *)
Inductive turn : Type :=
| Break (item_numbers : list string)
| Continue (item_numbers : list string) (start_rec : nat).

Section Site.

(** [get_soup(url)]: the parsed page, or [None] when the request
    fails. *)
Variable get_soup : string -> option node.
Variable urljoin : string -> string -> string.

Definition scrape_listing (item_no : string) : option (listing_data (list string)) :=
  let listing_url := BASE_URL ++ "iinfo.cfm?ItemNo=" ++ item_no in
  match get_soup listing_url with
  | None => None
  | Some soup => Some (scrape_soup urljoin listing_url item_no soup)
  end.

Variable max_items : option Z.
Variable category_menuid : option string.

Definition menuid : string :=
  match category_menuid with
  | Some c => if PyStr.truthy c then c else "m"
  | None => "m"
  end.

Definition all_items_url (start_rec : nat) : string :=
  BASE_URL ++ "mAllitems.cfm?menuid=" ++ menuid ++ "&subject=1&startRec="
           ++ PyStr.of_nat start_rec.

Definition item_links (soup : node) : list node :=
  Soup.select_desc (Soup.sel "td" "itemid") (Soup.sel "a" "collink0") soup.

Definition discover_turn (item_numbers : list string) (start_rec : nat) : turn :=
  match get_soup (all_items_url start_rec) with
  | None => Break item_numbers
  | Some soup =>
      let links := item_links soup in
      match links with
      | [] => Break item_numbers
      | _ =>
          let item_numbers := fold_left add_item links item_numbers in
          if (length links <? items_per_page)%nat then Break item_numbers
          else match max_reached max_items item_numbers with
               | Some m => Break (slice_to item_numbers m)
               | None => Continue item_numbers (start_rec + items_per_page)
               end
      end
  end.

(** The loop, run for at most [fuel] turns; [None] when it is still
    running after them. *)
Fixpoint discover_loop (fuel : nat) (item_numbers : list string) (start_rec : nat)
    : option (list string) :=
  match fuel with
  | O => None
  | S fuel' =>
      match discover_turn item_numbers start_rec with
      | Break r => Some r
      | Continue item_numbers' start_rec' => discover_loop fuel' item_numbers' start_rec'
      end
  end.

Definition discover_listings (fuel : nat) : option (list string) :=
  discover_loop fuel [] 1%nat.

End Site.

End Scraper.

(* ===================================================================== *)
(** ** Effects: what a call does besides returning                       *)
(* ===================================================================== *)

(** A Python exception as main.py observes it: [str(e)] and
    [traceback.format_exc()]. *)
Record exn : Type := mk_exn { exn_str : string; exn_traceback : string }.

(** A call returns, raises, or is still running. *)
Inductive outcome (A : Type) : Type :=
| Returns (a : A)
| Raises (e : exn)
| Running.

Arguments Returns {A}.
Arguments Raises {A}.
Arguments Running {A}.

(** Computations over a mutable state [S]. *)
Definition M (S A : Type) : Type := S -> S * outcome A.

Definition ret {S A : Type} (a : A) : M S A := fun s => (s, Returns a).

Definition bind {S A B : Type} (m : M S A) (f : A -> M S B) : M S B :=
  fun s =>
    match m s with
    | (s', Returns a) => f a s'
    | (s', Raises e) => (s', Raises e)
    | (s', Running) => (s', Running)
    end.

Definition lift {S A : Type} (o : outcome A) : M S A := fun s => (s, o).

Definition modify {S : Type} (f : S -> S) : M S unit := fun s => (f s, Returns tt).

Notation "'let*' x ':=' m 'in' k" := (bind m (fun x => k))
  (at level 10, x name, m at level 100, k at level 200).

Module Batch.

Section ScrapeAll.

(** The two methods [scrape_all_listings] calls, with their possible
    failures; [S] is the state its callback writes. *)
Context {S : Type}.
Variable discover_listings : option Z -> option string -> outcome (list string).
Variable scrape_listing : string -> outcome (option (listing_data (list string))).
Variable progress_callback : option (nat -> nat -> string -> S -> S).

Definition report (current total : nat) (label : string) : M S unit :=
  match progress_callback with
  | Some cb => modify (cb current total label)
  | None => ret tt
  end.

(** The [for i, item_no in enumerate(item_numbers)] loop, from index
    [i] on. *)
Fixpoint scrape_items (total i : nat) (item_numbers : list string)
    (all_data : list (listing_data (list string))) : M S (list (listing_data (list string))) :=
  match item_numbers with
  | [] => ret all_data
  | item_no :: rest =>
      let* _ := report (i + 1) total ("Item " ++ item_no) in
      let* listing := lift (scrape_listing item_no) in
      scrape_items total (i + 1) rest
        (match listing with
         | Some d => all_data ++ [d]
         | None => all_data
         end)
  end.

Definition scrape_all_listings (max_items : option Z) (category_menuid : option string)
    : M S (list (listing_data (list string))) :=
  let* item_numbers := lift (discover_listings max_items category_menuid) in
  scrape_items (length item_numbers) 0 item_numbers [].

End ScrapeAll.

End Batch.

(* ===================================================================== *)
(** ** main.py                                                           *)
(* ===================================================================== *)

(** The values of a status dictionary. *)
Inductive pyval : Type :=
| VStr (s : string)
| VInt (n : Z).

(** The two module-level dictionaries. *)
Record registry : Type := mk_registry {
  scraped_data_store : gmap string (list (listing_data string));
  scraping_status : gmap string (gmap string pyval)
}.

(** What a request handler gives back. *)
Inductive response (A : Type) : Type :=
| OK (a : A)
| HTTPException (status_code : Z) (detail : string).

Arguments OK {A}.
Arguments HTTPException {A}.

Module Main.

Definition set_status (job_id : string) (d : gmap string pyval) (reg : registry) : registry :=
  {| scraped_data_store := scraped_data_store reg;
     scraping_status := <[ job_id := d ]> (scraping_status reg) |}.

Definition set_data (job_id : string) (l : list (listing_data string)) (reg : registry) : registry :=
  {| scraped_data_store := <[ job_id := l ]> (scraped_data_store reg);
     scraping_status := scraping_status reg |}.

(** [scraping_status[job_id].get(key, 0)].  The entry exists wherever
    main.py reads it: line 48 writes it and only the callback rewrites
    it. *)
Definition status_get (job_id key : string) (reg : registry) : pyval :=
  default (VInt 0) (default ∅ (scraping_status reg !! job_id) !! key).

Definition running_dict (progress total : Z) (current_url : string) : gmap string pyval :=
  <[ "status" := VStr "running" ]>
  (<[ "progress" := VInt progress ]>
  (<[ "total" := VInt total ]>
  (<[ "current_url" := VStr current_url ]> ∅))).

Definition pending_dict : gmap string pyval :=
  <[ "status" := VStr "pending" ]>
  (<[ "progress" := VInt 0 ]>
  (<[ "total" := VInt 0 ]>
  (<[ "current_url" := VStr "" ]> ∅))).

Definition completed_dict (progress total : pyval) (count : nat) : gmap string pyval :=
  <[ "status" := VStr "completed" ]>
  (<[ "progress" := progress ]>
  (<[ "total" := total ]>
  (<[ "current_url" := VStr "Completed" ]>
  (<[ "count" := VInt (Z.of_nat count) ]> ∅)))).

Definition error_dict (e : exn) (progress total : pyval) : gmap string pyval :=
  <[ "status" := VStr "error" ]>
  (<[ "error" := VStr (exn_str e) ]>
  (<[ "traceback" := VStr (exn_traceback e) ]>
  (<[ "progress" := progress ]>
  (<[ "total" := total ]> ∅)))).

(** [start_scraping]: the job id comes from the clock. *)
Definition start_scraping (job_id : string) (reg : registry) : registry :=
  set_status job_id pending_dict reg.

(** [url[:100] + "..." if len(url) > 100 else url]. *)
Definition shorten (url : string) : string :=
  if (100 <? PyStr.len url)%nat then PyStr.take 100 url ++ "..." else url.

Definition progress_callback (job_id : string) (current total : nat) (url : string)
    (reg : registry) : registry :=
  set_status job_id (running_dict (Z.of_nat current) (Z.of_nat total) (shorten url)) reg.

(** The flattening of [pictures] for export. *)
Definition flatten (item : listing_data (list string)) : listing_data string :=
  {| title := title item; condition := condition item; location := location item;
     category := category item; listing_type := listing_type item; price := price item;
     pictures := match pictures item with [] => "" | ps => PyStr.join "; " ps end;
     manufacturer := manufacturer item; model := model item;
     year_of_manufacturer := year_of_manufacturer item;
     description := description item; url := url item; item_id := item_id item |}.

Section Job.

Variable discover_listings : option Z -> option string -> outcome (list string).
Variable scrape_listing : string -> outcome (option (listing_data (list string))).

(** [run_scraping_job]: the registry afterwards, and whether the task
    has returned. *)
Definition run_scraping_job (job_id : string) (max_listings : option Z)
    (reg : registry) : registry * bool :=
  let reg := set_status job_id (running_dict 0 0 "Initializing...") reg in
  match Batch.scrape_all_listings discover_listings scrape_listing
          (Some (progress_callback job_id)) max_listings None reg with
  | (reg, Returns all_data) =>
      let all_data := map flatten all_data in
      let reg := set_data job_id all_data reg in
      (set_status job_id
         (completed_dict (status_get job_id "progress" reg)
            (status_get job_id "total" reg) (length all_data)) reg, true)
  | (reg, Raises e) =>
      (set_status job_id
         (error_dict e (status_get job_id "progress" reg)
            (status_get job_id "total" reg)) reg, true)
  | (reg, Running) => (reg, false)
  end.

End Job.

Definition get_scraping_status (job_id : string) (reg : registry)
    : response (gmap string pyval) :=
  match scraping_status reg !! job_id with
  | None => HTTPException 404 "Job not found"
  | Some d => OK d
  end.

Definition get_scraped_data (job_id : string) (reg : registry)
    : response (list (listing_data string)) :=
  match scraped_data_store reg !! job_id with
  | None => HTTPException 404 "Data not found"
  | Some data => OK data
  end.

(** [if job_id in d: del d[job_id]]. *)
Definition del_if_present {V : Type} (job_id : string) (d : gmap string V) : gmap string V :=
  if bool_decide (is_Some (d !! job_id)) then delete job_id d else d.

Definition delete_data (job_id : string) (reg : registry) : registry * response string :=
  ({| scraped_data_store := del_if_present job_id (scraped_data_store reg);
      scraping_status := del_if_present job_id (scraping_status reg) |},
   OK "Data deleted").

End Main.

(** ** [SurplusScraper()] as main.py calls it

    The scraper over a site, its discovery loop cut after [fuel] turns. *)
Module Surplus.

Section Over.

Variable get_soup : string -> option node.
Variable urljoin : string -> string -> string.
Variable fuel : nat.

Definition discover_listings (max_items : option Z) (category_menuid : option string)
    : outcome (list string) :=
  match Scraper.discover_listings get_soup max_items category_menuid fuel with
  | Some item_numbers => Returns item_numbers
  | None => Running
  end.

Definition scrape_listing (item_no : string)
    : outcome (option (listing_data (list string))) :=
  Returns (Scraper.scrape_listing get_soup urljoin item_no).

End Over.

End Surplus.

(* ===================================================================== *)
(** ** Sample documents and sites                                        *)
(* ===================================================================== *)

Module Samples.

Definition document (children : list node) : node := Elem "[document]" [] [] children.

Definition empty_soup : node := document [].

(** An index row: [<td class="itemid"><a class="collink0" href=...>]. *)
Definition index_link (item_no : nat) : node :=
  Elem "td" ["itemid"] []
    [Elem "a" ["collink0"] [("href", "iinfo.cfm?ItemNo=" ++ PyStr.of_nat item_no)]
       [Text (PyStr.of_nat item_no)]].

Definition index_page (first count : nat) : node :=
  document [Elem "table" [] [] [Elem "tr" [] [] (map index_link (seq first count))]].

(** A site whose index has one page, with five listings. *)
Definition five_item_site (url : string) : option node :=
  if String.eqb url (Scraper.all_items_url None 1) then Some (index_page 1 5) else None.

(** A site whose index has a full page of 100 listings and then a page
    of 20. *)
Definition two_page_site (url : string) : option node :=
  if String.eqb url (Scraper.all_items_url None 1) then Some (index_page 1 100)
  else if String.eqb url (Scraper.all_items_url None 101) then Some (index_page 101 20)
  else None.

(** A site on which every request fails. *)
Definition dead_site (url : string) : option node := None.

(** A detail page whose preview image carries a cache-busting query. *)
Definition preview_soup : node :=
  document
    [Elem "img" ["imgprev"] [("src", "clientresources/a.jpg?v=1")] []].

(** A detail page with a table in which the label [Model] occurs twice. *)
Definition table_row (label value : string) : node :=
  Elem "tr" [] []
    [Elem "td" ["txtb"] [] [Text label]; Elem "td" ["txt"] [] [Text value]].

Definition table_soup : node :=
  document
    [Elem "table" [] []
       [table_row "Manufacturer" "Siemens"; table_row "Model" "X1";
        table_row "Empty" " "; table_row "Model" "X2"]].

(** A row whose first cell holds a word and then the label proper in an
    element of class [txtb]. *)
Definition nested_label_soup : node :=
  document
    [Elem "table" [] []
       [Elem "tr" [] []
          [Elem "td" [] [] [Text "Type"; Elem "b" ["txtb"] [] [Text "Model"]];
           Elem "td" ["txt"] [] [Text "X"]]]].

Definition simple_join (base rel : string) : string := base ++ rel.

Definition boom : exn := mk_exn "boom" "Traceback (most recent call last): ...".

End Samples.

(* ===================================================================== *)
(** ** Reference notions the properties are stated with                  *)
(* ===================================================================== *)

Module Spec.

(** The identifiers the anchors of a page carry, in document order. *)
Definition link_ids (links : list node) : list string :=
  omap (fun link => Scraper.item_no_of (Scraper.link_href link)) links.

(** A list with every repetition removed: each element stays where it
    was first seen. *)
Fixpoint first_seen (l : list string) : list string :=
  match l with
  | [] => []
  | x :: l' => x :: filter (fun y => y ≠ x) (first_seen l')
  end.

Section Site.

Variable get_soup : string -> option node.
Variable category_menuid : option string.

(** The anchors and the identifiers of the index page at an offset;
    none when the request fails. *)
Definition page_links (start_rec : nat) : list node :=
  match get_soup (Scraper.all_items_url category_menuid start_rec) with
  | Some soup => Scraper.item_links soup
  | None => []
  end.

Definition page_ids (start_rec : nat) : list string := link_ids (page_links start_rec).

(** The offset of the [j]-th request, and the identifiers on the first
    [k] pages. *)
Definition offset (j : nat) : nat := (1 + Scraper.items_per_page * j)%nat.

Definition visited_ids (k : nat) : list string :=
  flat_map (fun j => page_ids (offset j)) (seq 0 k).

(** The [j]-th page ends the enumeration whatever [max_items] is. *)
Definition last_page (j : nat) : Prop :=
  (length (page_links (offset j)) < Scraper.items_per_page)%nat.

End Site.

(** The value of the last row of a table that carries a label. *)
Definition row_value (key : string) (row : node) : option string :=
  match Scraper.row_pair row with
  | Some (label_text, value_text) =>
      if bool_decide (label_text = key) then Some value_text else None
  | None => None
  end.

Definition last_value (key : string) (rows : list node) : option string :=
  last (omap (row_value key) rows).

(** The same two notions read as the claim words them: the label is the
    lower-cased text of the first cell and the value the text of the second
    cell. *)
Definition cell_text_pair (row : node) : option (string * string) :=
  match Soup.find_all Scraper.is_cell row with
  | c0 :: c1 :: _ =>
      let label_text := PyStr.lower (Scraper.extract_text (Some c0)) in
      let value_text := Scraper.extract_text (Some c1) in
      if PyStr.truthy label_text && PyStr.truthy value_text
      then Some (label_text, value_text) else None
  | _ => None
  end.

Definition cell_text_value (key : string) (row : node) : option string :=
  match cell_text_pair row with
  | Some (label_text, value_text) =>
      if bool_decide (label_text = key) then Some value_text else None
  | None => None
  end.

Definition last_cell_text_value (key : string) (rows : list node) : option string :=
  last (omap (cell_text_value key) rows).

(** A detail page without any source for a field. *)
Definition no_title_source (soup : node) : Prop :=
  head (Soup.select_desc (Soup.sel "h1" "HL1") (Soup.sel "span" "HL1") soup) = None
  ∧ Soup.find (Soup.has_tag "title") soup = None
  ∧ List.find Scraper.bold_ok
      (map (fun b => Scraper.extract_text (Some b)) (Soup.find_all Scraper.is_bold soup)) = None.

Definition no_type_source (soup : node) : Prop :=
  ∀ type_elem,
    head (Soup.select_desc (Soup.sel "h2" "HL") (Soup.sel "span" "HL") soup) = Some type_elem →
    PyStr.contains "offered" (PyStr.lower (Scraper.extract_text (Some type_elem))) = false
    ∧ PyStr.contains "wanted" (PyStr.lower (Scraper.extract_text (Some type_elem))) = false.

Definition no_description_source (soup : node) : Prop :=
  List.find Scraper.description_ok
    (map (fun p => Scraper.extract_text (Some p)) (Soup.find_all (Soup.has_tag "p") soup)) = None.

Definition no_category_source (soup : node) : Prop :=
  Forall (fun a => let c := Scraper.extract_text (Some a) in
                   c = "" ∨ c = "View" ∨ c = "Search-by-Specs")
         (Soup.find_all (Soup.sel "a" "menubar") soup).

Definition no_table_source (key : string) (soup : node) : Prop :=
  last_value key (Scraper.table_rows soup) = None.

End Spec.

(* ===================================================================== *)
(** ** main.py: the export and listing handlers                          *)
(* ===================================================================== *)

Module Handlers.

(** The header and the body of a download. *)
Record download (B : Type) : Type := mk_download {
  content_disposition : string;
  body : B
}.

Arguments mk_download {B}.
Arguments content_disposition {B}.
Arguments body {B}.

(** A flattened record as the dictionary it is: [item[key]], when the key
    exists. *)
Definition field (key : string) (item : listing_data string) : option string :=
  if String.eqb key "title" then Some (title item)
  else if String.eqb key "condition" then Some (condition item)
  else if String.eqb key "location" then Some (location item)
  else if String.eqb key "category" then Some (category item)
  else if String.eqb key "listing_type" then Some (listing_type item)
  else if String.eqb key "price" then Some (price item)
  else if String.eqb key "pictures" then Some (pictures item)
  else if String.eqb key "manufacturer" then Some (manufacturer item)
  else if String.eqb key "model" then Some (model item)
  else if String.eqb key "year_of_manufacturer" then Some (year_of_manufacturer item)
  else if String.eqb key "description" then Some (description item)
  else if String.eqb key "url" then Some (url item)
  else if String.eqb key "item_id" then Some (item_id item)
  else None.

Definition columns_order : list string :=
  ["item_id"; "title"; "condition"; "location"; "category"; "listing_type"; "price";
   "manufacturer"; "model"; "year_of_manufacturer"; "description"; "pictures"; "url"].

(** [df.reindex(columns=columns_order, fill_value='')], row by row. *)
Definition reindex (columns : list string) (data : list (listing_data string))
    : list (list string) :=
  map (fun item => map (fun key => default "" (field key item)) columns) data.

Section Csv.

(** [DataFrame.to_csv(index=False)] followed by the UTF-8 encoding, a
    library function of the column names and the rows. *)
Variable to_csv : list string -> list (list string) -> string.

Definition export_csv (job_id : string) (reg : registry) : response (download string) :=
  match scraped_data_store reg !! job_id with
  | None => HTTPException 404 "Data not found"
  | Some data =>
      match data with
      | [] => HTTPException 404 "No data to export"
      | _ =>
          OK (mk_download
                ("attachment; filename=surplus_equipment_" ++ job_id ++ ".csv")
                (to_csv columns_order (reindex columns_order data)))
      end
  end.

End Csv.

Definition export_json (job_id : string) (reg : registry)
    : response (download (list (listing_data string))) :=
  match scraped_data_store reg !! job_id with
  | None => HTTPException 404 "Data not found"
  | Some data =>
      match data with
      | [] => HTTPException 404 "No data to export"
      | _ =>
          OK (mk_download
                ("attachment; filename=surplus_equipment_" ++ job_id ++ ".json") data)
      end
  end.

(** The ["count"] entry of [list_jobs]:
    [scraped_data_store.get(job_id, len(scraped_data_store.get(job_id, [])))]
    is the stored list when there is one and the length of [[]] otherwise. *)
Inductive count_entry : Type :=
| CountList (data : list (listing_data string))
| CountInt (n : Z).

Record job_info : Type := mk_job_info {
  info_job_id : string;
  info_status : pyval;
  info_count : count_entry
}.

Definition job_count (job_id : string) (reg : registry) : count_entry :=
  let fallback := Z.of_nat (length (default [] (scraped_data_store reg !! job_id))) in
  match scraped_data_store reg !! job_id with
  | Some data => CountList data
  | None => CountInt fallback
  end.

Definition job_entry (reg : registry) (entry : string * gmap string pyval) : job_info :=
  {| info_job_id := entry.1;
     info_status := default (VStr "unknown") (entry.2 !! "status");
     info_count := job_count entry.1 reg |}.

(** [list_jobs]: one entry for every key of [scraping_status].  The
    entries are listed in the order of the keys of the map; the insertion
    order of the Python dictionary is not part of the registry. *)
Definition list_jobs (reg : registry) : list job_info :=
  map (job_entry reg) (map_to_list (scraping_status reg)).

End Handlers.

(* ===================================================================== *)
(** ** Further reference notions                                         *)
(* ===================================================================== *)

Module Shape.

(** What is left of a string after its longest initial run of characters
    in a class. *)
Fixpoint drop_while (p : ascii -> bool) (s : string) : string :=
  match s with
  | String c t => if p c then drop_while p t else s
  | EmptyString => EmptyString
  end.

(** Every character of the string is in the class. *)
Fixpoint all_chars (p : ascii -> bool) (s : string) : bool :=
  match s with
  | String c t => p c && all_chars p t
  | EmptyString => true
  end.

(** Every white-space character of the string is a blank, and no two
    blanks follow each other; [prev] tells whether a blank precedes. *)
Fixpoint spaced (prev : bool) (s : string) : bool :=
  match s with
  | EmptyString => true
  | String c t =>
      if PyStr.isspace c
      then Ascii.eqb c " "%char && negb prev && spaced true t
      else spaced false t
  end.

(** Single blanks between words, none at either end. *)
Fixpoint ends_clean (s : string) : bool :=
  match s with
  | EmptyString => true
  | String c EmptyString => negb (PyStr.isspace c)
  | String _ t => ends_clean t
  end.

Definition tidy (s : string) : bool := spaced true s && ends_clean s.

(** The states the progress callback leaves behind while the items from
    index [i] on are processed. *)
Fixpoint reports {S : Type} (cb : nat -> nat -> string -> S -> S) (total i : nat)
    (item_numbers : list string) (s : S) : S :=
  match item_numbers with
  | [] => s
  | item_no :: rest => reports cb total (i + 1) rest (cb (i + 1)%nat total ("Item " ++ item_no) s)
  end.

(** The state of the image passes when the stripped sources taken so far
    are [srcs]: the pictures are their resolved forms and [seen_urls] is
    their set. *)
Definition pics_of (urljoin : string -> string -> string) (srcs : list string)
    (st : Scraper.pics) : Prop :=
  st = (map (urljoin Scraper.BASE_URL) srcs, list_to_set srcs).

(** No attribute [src] or [href] in the document carries a query. *)
Definition no_query (soup : node) : Prop :=
  ∀ n v, In n (Soup.descendants soup) →
         Soup.get "src" n = Some v ∨ Soup.get "href" n = Some v →
         PyStr.split_head "?" v = v.

Definition after_reports {S : Type} (cb : option (nat -> nat -> string -> S -> S))
    (total i : nat) (item_numbers : list string) (s : S) : S :=
  match cb with
  | Some c => reports c total i item_numbers s
  | None => s
  end.

End Shape.

Module MoreSamples.

(** A detail page with a preview image, two further image links and a
    heading that names both listing types. *)
Definition gallery_soup : node :=
  Samples.document
    [Elem "h2" ["HL"] [] [Elem "span" ["HL"] [] [Text "Wanted or Offered at 5 EUR"]];
     Elem "h1" ["HL1"] [] [Elem "span" ["HL1"] [] [Text "  Wafer   prober "]];
     Elem "img" ["imgprev"] [("src", "clientresources/a.jpg")] [];
     Elem "a" ["addlImage"] [("href", "clientresources/b.jpg")] [];
     Elem "a" ["addlImage"] [("href", "clientresources/a.jpg")] [];
     Elem "a" ["menubar"] [] [Text "Test Equipment"]].

(** A registry with one finished job without records and one with a
    record. *)
Definition some_record : listing_data string :=
  mk_listing "t" "" "Regensburg, Germany" "" "" "" "" "" "" "" "" "u" "1".

Definition two_job_registry : registry :=
  Main.set_data "full" [some_record]
    (Main.set_data "empty" [] (Main.start_scraping "pending" (mk_registry ∅ ∅))).

Definition plain_csv (columns : list string) (rows : list (list string)) : string :=
  PyStr.join "," columns.

(** A table whose rows have three cells, one of them without a value, and
    in which the label [Condition] occurs twice. *)
Definition three_cell_row (label value : string) : node :=
  Elem "tr" [] []
    [Elem "td" ["txtb"] [] [Text label]; Elem "td" ["txt"] [] [Text value];
     Elem "td" [] [] [Text "more"]].

Definition wide_table_soup : node :=
  Samples.document
    [Elem "table" [] []
       [three_cell_row "Condition" "New"; three_cell_row " CONDITION " " Used ";
        three_cell_row "Condition" "  "; Elem "tr" [] [] [Elem "td" [] [] [Text "Condition"]]]].

(** A detail page whose heading holds only the quantity prefix, whose
    title tag holds only the name of the site and whose bold text is
    short. *)
Definition blank_title_soup : node :=
  Samples.document
    [Elem "title" [] [] [Text " Infineon Technologies AG - Equipment Trade "];
     Elem "h1" ["HL1"] [] [Elem "span" ["HL1"] [] [Text "2 Offered at 500 EUR"]];
     Elem "b" [] [] [Text "Details"]].

(** A registry that holds a result under the id a later job gets again. *)
Definition reused_id_registry : registry :=
  Main.set_data "20240101_120000" [some_record]
    (Main.start_scraping "20240101_120000" (mk_registry ∅ ∅)).

End MoreSamples.

(* ===================================================================== *)
(** ** What a page offers to the table pass and to the title chain       *)
(* ===================================================================== *)

Module Reading.

(** The cells of a row: every [td] and [th] below it, in document order. *)
Definition cells (row : node) : list node :=
  Soup.find_all (fun n => Soup.has_tag "td" n || Soup.has_tag "th" n) row.

(** The label a first cell gives: the text of the first element of class
    [txtb] inside it, or its own text when it has none, stripped and
    lower-cased.  The value a second cell gives: the text of the first
    element of class [txt] inside it, or its own text, stripped. *)
Definition label_text (c0 : node) : string :=
  PyStr.lower
    (PyStr.strip (Soup.get_text (default c0 (Soup.find (Soup.has_class "txtb") c0)))).

Definition value_text (c1 : node) : string :=
  PyStr.strip (Soup.get_text (default c1 (Soup.find (Soup.has_class "txt") c1))).

(** The row has at least two cells and its first two cells give this
    label and this value, neither of them empty. *)
Definition reads (row : node) (label value : string) : Prop :=
  ∃ c0 c1 more,
    cells row = (c0 :: c1 :: more)%list
    ∧ label = label_text c0 ∧ value = value_text c1
    ∧ label ≠ "" ∧ value ≠ "".

(** [value] is read under [key] from a row after which no row gives
    anything under [key]; no row gives anything under [key]. *)
Definition last_reading (rows : list node) (key value : string) : Prop :=
  ∃ i row,
    rows !! i = Some row ∧ reads row key value
    ∧ ∀ j row' value', (i < j)%nat → rows !! j = Some row' → ¬ reads row' key value'.

Definition no_reading (rows : list node) (key : string) : Prop :=
  ∀ row value, In row rows → ¬ reads row key value.

(** What a table field holds. *)
Definition field_is (rows : list node) (key x : string) : Prop :=
  last_reading rows key x ∨ (no_reading rows key ∧ x = "").

(** None of the three title heuristics finds a text: the heading, when
    there is one, is empty once the quantity prefix is removed; the title
    tag, when there is one, is empty once the name of the site is removed;
    and no bold text qualifies. *)
Definition title_finds_nothing (soup : node) : Prop :=
  (∀ title_elem,
     head (Soup.select_desc (Soup.sel "h1" "HL1") (Soup.sel "span" "HL1") soup)
     = Some title_elem →
     PyStr.strip (Re.sub Scraper.re_title_prefix "" (Soup.get_text title_elem)) = "")
  ∧ (∀ title_tag,
       Soup.find (Soup.has_tag "title") soup = Some title_tag →
       PyStr.strip (PyStr.replace Scraper.SITE_NAME "" (Soup.get_text title_tag)) = "")
  ∧ List.find Scraper.bold_ok
      (map (fun b => Scraper.extract_text (Some b)) (Soup.find_all Scraper.is_bold soup))
    = None.

End Reading.

Open Scope list_scope.

(* ===================================================================== *)
(** ** Properties of the value clean-up                                  *)
(* ===================================================================== *)

(** C4.  The clean-up chain of [extract_table_value] maps
    "Offered at $500 Serial Number 1234567" to the empty string and leaves
    "Siemens" unchanged. *)
Theorem clean_value_examples :
  Scraper.clean_value "Offered at $500 Serial Number 1234567" = ""
  ∧ Scraper.clean_value "Siemens" = "Siemens".
Proof. split; vm_compute; reflexivity. Qed.

(* ===================================================================== *)
(** ** Properties of the pictures                                        *)
(* ===================================================================== *)

(** C2.  On a page whose preview image has a query string in its [src],
    the fallback scan meets the same image again, tests the unstripped
    [src] against [seen_urls] (which holds stripped ones) and appends the
    same URL a second time: the pictures list has a duplicate, whatever
    [urljoin] is. *)
Theorem extract_pictures_repeats_preview (urljoin : string -> string -> string)
    (listing_url item_no : string) :
  let u := urljoin Scraper.BASE_URL "clientresources/a.jpg" in
  pictures (Scraper.scrape_soup urljoin listing_url item_no Samples.preview_soup) = [u; u]
  ∧ ¬ NoDup (pictures (Scraper.scrape_soup urljoin listing_url item_no Samples.preview_soup)).
Proof.
  assert (E : pictures (Scraper.scrape_soup urljoin listing_url item_no Samples.preview_soup)
              = [urljoin Scraper.BASE_URL "clientresources/a.jpg";
                 urljoin Scraper.BASE_URL "clientresources/a.jpg"])
    by (vm_compute; reflexivity).
  cbv zeta. split; [exact E|].
  rewrite E. intros H. apply NoDup_cons_1_1 in H. apply H. left.
Qed.

(* ===================================================================== *)
(** ** Properties of the pagination                                      *)
(* ===================================================================== *)

Section FirstSeen.

Import Spec.

Lemma elem_of_first_seen (x : string) (l : list string) : x ∈ first_seen l ↔ x ∈ l.
Proof.
  induction l as [|y l IH]; simpl; [reflexivity|].
  rewrite !elem_of_cons, list_elem_of_filter, IH.
  destruct (decide (x = y)); tauto.
Qed.

Lemma NoDup_first_seen (l : list string) : NoDup (first_seen l).
Proof.
  induction l as [|y l IH]; simpl; [constructor|].
  apply NoDup_cons. split.
  - rewrite list_elem_of_filter. intros [Hne _]. by apply Hne.
  - by apply NoDup_filter.
Qed.

Lemma first_seen_snoc (l : list string) (x : string) :
  first_seen (l ++ [x]) = if bool_decide (x ∈ l) then first_seen l else first_seen l ++ [x].
Proof.
  induction l as [|y l IH]; simpl; [reflexivity|].
  rewrite IH. destruct (decide (x = y)) as [->|Hne].
  - rewrite (bool_decide_eq_true_2 (y ∈ y :: l)) by left.
    case_bool_decide; [reflexivity|].
    rewrite filter_app, filter_cons_False by (intros Hne; by apply Hne).
    by rewrite filter_nil, app_nil_r.
  - case_bool_decide as Hin.
    + rewrite bool_decide_eq_true_2 by (by right). reflexivity.
    + rewrite bool_decide_eq_false_2 by (rewrite elem_of_cons; tauto).
      rewrite filter_app, filter_cons_True by done. reflexivity.
Qed.

(** The loop over the anchors of a page extends the first-seen list. *)
Lemma fold_add_item (links : list node) (seen : list string) :
  fold_left Scraper.add_item links (first_seen seen) = first_seen (seen ++ link_ids links).
Proof.
  revert seen. induction links as [|link links IH]; intros seen; simpl.
  - by rewrite app_nil_r.
  - unfold link_ids. simpl. unfold Scraper.add_item at 2.
    destruct (Scraper.item_no_of (Scraper.link_href link)) as [item_no|]; simpl.
    + replace (seen ++ item_no :: omap _ links)
        with ((seen ++ [item_no]) ++ link_ids links)
        by (by rewrite <- app_assoc).
      rewrite <- IH, first_seen_snoc.
      rewrite (bool_decide_ext _ (item_no ∈ seen)) by apply elem_of_first_seen.
      reflexivity.
    + apply IH.
Qed.

Lemma slice_to_take {A : Type} (l : list A) (n : Z) : ∃ k, Scraper.slice_to l n = take k l.
Proof. unfold Scraper.slice_to. destruct (0 <=? n); eauto. Qed.

End FirstSeen.

Section Discovery.

Import Spec Scraper.

Variable get_soup : string -> option node.
Variable max_items : option Z.
Variable category_menuid : option string.

Lemma visited_ids_S (k : nat) :
  visited_ids get_soup category_menuid (S k)
  = visited_ids get_soup category_menuid k ++ page_ids get_soup category_menuid (offset k).
Proof.
  unfold visited_ids. rewrite seq_S, flat_map_app. simpl. by rewrite app_nil_r.
Qed.

Lemma offset_S (j : nat) : (offset j + Scraper.items_per_page)%nat = offset (S j).
Proof. unfold offset, Scraper.items_per_page. lia. Qed.

(** One turn, in terms of the anchors of the page it requests. *)
Lemma discover_turn_eq (item_numbers : list string) (start_rec : nat) :
  discover_turn get_soup max_items category_menuid item_numbers start_rec =
  let links := page_links get_soup category_menuid start_rec in
  let item_numbers' := fold_left Scraper.add_item links item_numbers in
  if (length links <? Scraper.items_per_page)%nat then Break item_numbers'
  else match Scraper.max_reached max_items item_numbers' with
       | Some m => Break (Scraper.slice_to item_numbers' m)
       | None => Continue item_numbers' (start_rec + Scraper.items_per_page)
       end.
Proof.
  unfold Scraper.discover_turn, page_links.
  destruct (get_soup _) as [soup|]; [|reflexivity].
  destruct (Scraper.item_links soup) as [|link links] eqn:E; reflexivity.
Qed.

(** Every list the loop holds or returns is an initial part of the
    first-seen list of the identifiers on the pages requested so far. *)
Lemma discover_loop_first_seen (fuel j : nat) (l : list string) :
  discover_loop get_soup max_items category_menuid fuel
    (first_seen (visited_ids get_soup category_menuid j)) (offset j) = Some l →
  ∃ k n, l = take n (first_seen (visited_ids get_soup category_menuid k)).
Proof.
  revert j. induction fuel as [|fuel IH]; intros j; simpl; [discriminate|].
  rewrite discover_turn_eq. cbv zeta.
  rewrite fold_add_item. fold (page_ids get_soup category_menuid (offset j)).
  rewrite <- visited_ids_S.
  destruct (_ <? _)%nat.
  - intros [= <-].
    exists (S j), (length (first_seen (visited_ids get_soup category_menuid (S j)))).
    by rewrite take_ge.
  - destruct (Scraper.max_reached _ _) as [m|].
    + intros [= <-].
      destruct (slice_to_take (first_seen (visited_ids get_soup category_menuid (S j))) m)
        as [n ->].
      by exists (S j), n.
    + rewrite offset_S. apply IH.
Qed.

(** The loop returns once a request fails or a page has fewer than 100
    anchors. *)
Lemma discover_loop_returns (k : nat) (item_numbers : list string) (j : nat) :
  last_page get_soup category_menuid (j + k) →
  ∃ l, discover_loop get_soup max_items category_menuid (S k) item_numbers (offset j) = Some l.
Proof.
  revert item_numbers j. induction k as [|k IH]; intros item_numbers j Hlast.
  - replace (j + 0)%nat with j in Hlast by lia.
    simpl. rewrite discover_turn_eq. cbv zeta.
    unfold last_page in Hlast. apply Nat.ltb_lt in Hlast. rewrite Hlast. eauto.
  - cbn [Scraper.discover_loop]. rewrite discover_turn_eq. cbv zeta.
    destruct (_ <? _)%nat; [eauto|].
    destruct (Scraper.max_reached _ _); [eauto|].
    rewrite offset_S. apply IH.
    by replace (S j + k)%nat with (j + S k)%nat by lia.
Qed.

(** More turns do not change what the loop returns. *)
Lemma discover_loop_more (fuel : nat) (item_numbers : list string) (start_rec : nat)
    (l : list string) :
  discover_loop get_soup max_items category_menuid fuel item_numbers start_rec = Some l →
  discover_loop get_soup max_items category_menuid (S fuel) item_numbers start_rec = Some l.
Proof.
  revert item_numbers start_rec. induction fuel as [|fuel IH]; intros items start.
  - discriminate.
  - intros H. cbn [Scraper.discover_loop] in *.
    destruct (discover_turn get_soup max_items category_menuid items start); [exact H|].
    by apply IH.
Qed.

End Discovery.

Lemma discover_loop_mono (get_soup : string -> option node) (max_items : option Z)
    (category_menuid : option string) (fuel fuel' : nat) (item_numbers : list string)
    (start_rec : nat) (l : list string) :
  (fuel ≤ fuel')%nat →
  Scraper.discover_loop get_soup max_items category_menuid fuel item_numbers start_rec = Some l →
  Scraper.discover_loop get_soup max_items category_menuid fuel' item_numbers start_rec = Some l.
Proof.
  induction 1 as [|fuel' _ IH]; [done|].
  intros H. by apply discover_loop_more, IH.
Qed.

Lemma fold_add_item_seen (links : list node) (item_numbers : list string) :
  (∀ x, x ∈ Spec.link_ids links → x ∈ item_numbers) →
  fold_left Scraper.add_item links item_numbers = item_numbers.
Proof.
  induction links as [|link links IH]; simpl; [done|].
  unfold Spec.link_ids. simpl. unfold Scraper.add_item at 2.
  destruct (Scraper.item_no_of (Scraper.link_href link)) as [item_no|]; simpl.
  - intros Hseen. rewrite bool_decide_eq_true_2 by (apply Hseen; left).
    apply IH. intros x Hx. apply Hseen. by right.
  - apply IH.
Qed.

(** C1.  With [max_items = 3] and an index of one page carrying five
    listings, the loop leaves at the short-page test, before the
    [max_items] test is reached, and returns all five identifiers. *)
Theorem discover_listings_exceeds_max_items (fuel : nat) :
  Scraper.discover_listings Samples.five_item_site (Some 3) None (S fuel)
  = Some ["1"; "2"; "3"; "4"; "5"].
Proof.
  unfold Scraper.discover_listings. cbn [Scraper.discover_loop].
  assert (E : Scraper.discover_turn Samples.five_item_site (Some 3) None [] 1
              = Scraper.Break ["1"; "2"; "3"; "4"; "5"]) by (vm_compute; reflexivity).
  by rewrite E.
Qed.





(** C9.  What discovery returns has no repeated identifier and is an
    initial part of the first-seen list of the identifiers on the pages it
    requested; it does return once a page has fewer than 100 anchors or a
    request fails; it returns the empty list, not an error, when the first
    request fails; and a full page of anchors whose identifiers were all
    seen before adds nothing but still sends the loop to the next page. *)
Theorem discover_listings_no_duplicates (get_soup : string -> option node)
    (max_items : option Z) (category_menuid : option string) :
  (∀ fuel l,
     Scraper.discover_listings get_soup max_items category_menuid fuel = Some l →
     NoDup l
     ∧ ∃ k n, l = take n (Spec.first_seen (Spec.visited_ids get_soup category_menuid k)))
  ∧ (∀ k, Spec.last_page get_soup category_menuid k →
       ∃ l, ∀ fuel, (k < fuel)%nat →
         Scraper.discover_listings get_soup max_items category_menuid fuel = Some l)
  ∧ (get_soup (Scraper.all_items_url category_menuid 1) = None →
       ∀ fuel, Scraper.discover_listings get_soup max_items category_menuid (S fuel) = Some [])
  ∧ (∀ item_numbers start_rec,
       length (Spec.page_links get_soup category_menuid start_rec) = Scraper.items_per_page →
       (∀ x, x ∈ Spec.page_ids get_soup category_menuid start_rec → x ∈ item_numbers) →
       Scraper.max_reached max_items item_numbers = None →
       Scraper.discover_turn get_soup max_items category_menuid item_numbers start_rec
       = Scraper.Continue item_numbers (start_rec + Scraper.items_per_page)).
Proof.
  repeat split.
  - destruct (discover_loop_first_seen get_soup max_items category_menuid fuel 0 l H)
      as (k & n & ->).
    eapply sublist_NoDup; [apply NoDup_first_seen | apply sublist_take].
  - by apply (discover_loop_first_seen get_soup max_items category_menuid fuel 0 l).
  - intros k Hlast.
    destruct (discover_loop_returns get_soup max_items category_menuid k [] 0 Hlast)
      as [l Hl].
    exists l. intros fuel Hk. unfold Scraper.discover_listings.
    eapply discover_loop_mono; [|exact Hl]. lia.
  - intros Hfail fuel. unfold Scraper.discover_listings. cbn [Scraper.discover_loop].
    unfold Scraper.discover_turn. by rewrite Hfail.
  - intros item_numbers start_rec Hlen Hseen Hmax.
    rewrite discover_turn_eq. cbv zeta.
    rewrite fold_add_item_seen by exact Hseen.
    by rewrite Hlen, Hmax.
Qed.

Lemma discover_listings_no_duplicates_witness :
  Scraper.discover_listings Samples.two_page_site None None 2
  = Some (map PyStr.of_nat (seq 1 120))
  ∧ NoDup (map PyStr.of_nat (seq 1 120))
  ∧ Scraper.discover_listings Samples.dead_site None None 1 = Some [].
Proof.
  assert (E : Scraper.discover_listings Samples.two_page_site None None 2
              = Some (map PyStr.of_nat (seq 1 120))) by (vm_compute; reflexivity).
  split; [exact E|]. split.
  - exact (proj1 (proj1 (discover_listings_no_duplicates Samples.two_page_site None None)
                    2%nat _ E)).
  - apply (proj1 (proj2 (proj2 (discover_listings_no_duplicates Samples.dead_site None None)))).
    reflexivity.
Defined.

(* ===================================================================== *)
(** ** Properties of the detail-page extraction                          *)
(* ===================================================================== *)

(** The dictionary after the rows: for every label the value of the last
    row that carries it, else what the dictionary held before. *)
Lemma fold_table_step (rows : list node) (all_data : gmap string string) (key : string) :
  fold_left Scraper.table_step rows all_data !! key
  = match Spec.last_value key rows with
    | Some v => Some v
    | None => all_data !! key
    end.
Proof.
  revert all_data. induction rows as [|row rows IH]; intros all_data; [reflexivity|].
  cbn [fold_left]. rewrite IH. unfold Spec.last_value. cbn [omap list_omap].
  fold (omap (Spec.row_value key) rows).
  unfold Scraper.table_step, Spec.row_value at 2.
  destruct (Scraper.row_pair row) as [[label_text value_text]|]; [|reflexivity].
  case_bool_decide as Hkey.
  - subst label_text. rewrite last_cons, lookup_insert_eq.
    by destruct (last (omap (Spec.row_value key) rows)).
  - by rewrite lookup_insert_ne.
Qed.

Lemma dict_get_table_data (soup : node) (key : string) :
  Scraper.dict_get (Scraper.table_data soup) key
  = default "" (Spec.last_value key (Scraper.table_rows soup)).
Proof.
  unfold Scraper.dict_get, Scraper.table_data. rewrite fold_table_step, lookup_empty.
  by destruct (Spec.last_value key (Scraper.table_rows soup)).
Qed.

Lemma truthy_ne (s : string) : PyStr.truthy s = true → s ≠ "".
Proof. by destruct s. Qed.

(** C10, as stated, fails: the label of a row is not always the text of
    its first cell.  Here the first cell reads "TypeModel" and no row has
    the cell text [model], yet the model field is "X", taken under the
    label found in the [txtb] element inside the cell. *)
Lemma cell_text_is_not_the_label :
  let rows := Scraper.table_rows Samples.nested_label_soup in
  let r := Scraper.scrape_soup Samples.simple_join "u" "1" Samples.nested_label_soup in
  omap Spec.cell_text_pair rows = [("typemodel", "X")]
  ∧ default "" (Spec.last_cell_text_value "model" rows) = ""
  ∧ model r = "X".
Proof. vm_compute. by repeat split. Qed.

Lemma omap_all_none {A B : Type} (f : A -> option B) (l : list A) :
  omap f l = [] ↔ ∀ x, In x l → f x = None.
Proof.
  induction l as [|x l IH]; [done|].
  cbn [omap list_omap]. fold (omap f l). split.
  - destruct (f x) eqn:E; [discriminate|].
    intros H y [<-|Hy]; [exact E | by apply IH].
  - intros H. rewrite (H x) by (by left). apply IH. intros y Hy. apply H. by right.
Qed.

Lemma last_omap_none {A B : Type} (f : A -> option B) (l : list A) :
  last (omap f l) = None ↔ ∀ x, In x l → f x = None.
Proof. rewrite last_None. apply omap_all_none. Qed.

(** The last value a partial function gives on a list comes from an
    element after which it gives nothing. *)
Lemma last_omap_some {A B : Type} (f : A -> option B) (l : list A) (v : B) :
  last (omap f l) = Some v
  ↔ ∃ i x, l !! i = Some x ∧ f x = Some v
           ∧ ∀ j y, (i < j)%nat → l !! j = Some y → f y = None.
Proof.
  induction l as [|x l IH]; [split; [discriminate | by intros (i & ? & ? & _)]|].
  cbn [omap list_omap]. fold (omap f l). split.
  - intros Hlast. destruct (last (omap f l)) as [w|] eqn:Hl.
    + assert (w = v) as ->.
      { destruct (f x); [rewrite last_cons, Hl in Hlast|rewrite Hl in Hlast]; congruence. }
      destruct (proj1 IH eq_refl) as (i & y & Hi & Hy & Hlater). exists (S i), y.
      split; [exact Hi|]. split; [exact Hy|].
      intros [|j] z Hj; [lia|]. apply Hlater. lia.
    + destruct (f x) as [w|] eqn:Hx; [|congruence].
      rewrite last_cons, Hl in Hlast. injection Hlast as ->.
      exists 0%nat, x. split; [reflexivity|]. split; [exact Hx|].
      intros [|j] z Hj Hz; [lia|].
      apply (proj1 (last_omap_none f l) Hl). apply list_elem_of_In.
      apply list_elem_of_lookup. by exists j.
  - intros (i & y & Hi & Hy & Hlater). destruct i as [|i].
    + injection Hi as ->. rewrite Hy, last_cons.
      assert (Hnone : last (omap f l) = None).
      { apply last_omap_none. intros z Hz. apply list_elem_of_In, list_elem_of_lookup in Hz
          as [j Hj]. apply (Hlater (S j) z); [lia | exact Hj]. }
      by rewrite Hnone.
    + assert (Hl : last (omap f l) = Some v).
      { apply IH. exists i, y. split; [exact Hi|]. split; [exact Hy|].
        intros j z Hj Hz. apply (Hlater (S j) z); [lia | exact Hz]. }
      destruct (f x); [by rewrite last_cons, Hl | exact Hl].
Qed.

(** What the table pass records from a row is what the row gives. *)
Lemma row_pair_reads (row : node) (label_text value_text : string) :
  Scraper.row_pair row = Some (label_text, value_text)
  ↔ Reading.reads row label_text value_text.
Proof.
  unfold Scraper.row_pair, Reading.reads, Reading.cells, Reading.label_text,
    Reading.value_text, Scraper.extract_text.
  change (Soup.find_all (fun n => Soup.has_tag "td" n || Soup.has_tag "th" n) row)
    with (Soup.find_all Scraper.is_cell row).
  split.
  - destruct (Soup.find_all Scraper.is_cell row) as [|c0 [|c1 more]]; try discriminate.
    cbv zeta. destruct (PyStr.truthy _ && PyStr.truthy _) eqn:E; [|discriminate].
    apply andb_prop in E as [El Ev]. intros [= <- <-].
    exists c0, c1, more. split; [reflexivity|]. split; [reflexivity|]. split; [reflexivity|].
    split; by apply truthy_ne.
  - intros (c0 & c1 & more & -> & -> & -> & Hl & Hv). cbv zeta.
    destruct (PyStr.lower _) eqn:El; [by destruct Hl|].
    destruct (PyStr.strip (Soup.get_text (default c1 _))) eqn:Ev; [by destruct Hv|].
    reflexivity.
Qed.

Lemma row_value_reads (key : string) (row : node) (value : string) :
  Spec.row_value key row = Some value ↔ Reading.reads row key value.
Proof.
  unfold Spec.row_value. rewrite <- row_pair_reads.
  destruct (Scraper.row_pair row) as [[l v]|]; [|done].
  case_bool_decide; split; congruence.
Qed.

Lemma row_value_none (key : string) (row : node) :
  Spec.row_value key row = None ↔ ∀ value, ¬ Reading.reads row key value.
Proof.
  split.
  - intros H value Hr. apply row_value_reads in Hr. congruence.
  - intros H. destruct (Spec.row_value key row) as [v|] eqn:E; [|reflexivity].
    apply row_value_reads in E. by destruct (H v).
Qed.

Lemma last_value_reading (key : string) (rows : list node) (value : string) :
  Spec.last_value key rows = Some value ↔ Reading.last_reading rows key value.
Proof.
  unfold Spec.last_value, Reading.last_reading. rewrite last_omap_some. split.
  - intros (i & row & Hi & Hv & Hlater). exists i, row. split; [exact Hi|].
    split; [by apply row_value_reads|].
    intros j row' value' Hj Hrow' Hr. apply row_value_reads in Hr.
    rewrite (Hlater j row' Hj Hrow') in Hr. discriminate.
  - intros (i & row & Hi & Hv & Hlater). exists i, row. split; [exact Hi|].
    split; [by apply row_value_reads|].
    intros j row' Hj Hrow'. apply row_value_none. intros value'. by apply (Hlater j).
Qed.

Lemma last_value_no_reading (key : string) (rows : list node) :
  Spec.last_value key rows = None ↔ Reading.no_reading rows key.
Proof.
  unfold Spec.last_value, Reading.no_reading. rewrite last_omap_none. split.
  - intros H row value Hrow. by apply row_value_none, H.
  - intros H row Hrow. apply row_value_none. intros value. by apply H.
Qed.

Lemma dict_get_field_is (soup : node) (key : string) :
  Reading.field_is (Soup.find_all (Soup.has_tag "tr") soup) key
    (Scraper.dict_get (Scraper.table_data soup) key).
Proof.
  rewrite dict_get_table_data. unfold Reading.field_is.
  change (Scraper.table_rows soup) with (Soup.find_all (Soup.has_tag "tr") soup).
  destruct (Spec.last_value key _) as [v|] eqn:E.
  - left. by apply last_value_reading.
  - right. split; [by apply last_value_no_reading | reflexivity].
Qed.

Lemma reads_functional (row : node) (key v v' : string) :
  Reading.reads row key v → Reading.reads row key v' → v = v'.
Proof.
  intros (c0 & c1 & more & Hc & _ & -> & _) (c0' & c1' & more' & Hc' & _ & -> & _).
  congruence.
Qed.

(** C10, amended.  The table pass goes over all [tr] rows of the page.  A
    row gives a pair exactly when it has at least two cells ([td] or [th],
    any number beyond two) and both its label and its value are non-empty:
    the label is the text of the first element of class [txtb] inside the
    first cell, or of the first cell when it has none, stripped and
    lower-cased, and the value is the text of the first element of class
    [txt] inside the second cell, or of the second cell when it has none,
    stripped.  The dictionary holds under a label the value of the last row
    that gives a pair under it, and nothing under a label no row gives a
    pair under; that value is unique.  Each of the five table fields,
    under its exact lower-case key, is the value of the last such row, and
    the empty string when there is none. *)
Theorem table_data_last_row_wins (urljoin : string -> string -> string)
    (listing_url item_no : string) (soup : node) :
  let rows := Soup.find_all (Soup.has_tag "tr") soup in
  let r := Scraper.scrape_soup urljoin listing_url item_no soup in
  (∀ row label_text value_text,
     Scraper.row_pair row = Some (label_text, value_text)
     ↔ Reading.reads row label_text value_text)
  ∧ (∀ key value,
       Scraper.table_data soup !! key = Some value ↔ Reading.last_reading rows key value)
  ∧ (∀ key, Scraper.table_data soup !! key = None ↔ Reading.no_reading rows key)
  ∧ (∀ key value value',
       Reading.last_reading rows key value → Reading.last_reading rows key value' →
       value = value')
  ∧ Reading.field_is rows "manufacturer" (manufacturer r)
  ∧ Reading.field_is rows "model" (model r)
  ∧ Reading.field_is rows "year of manufacture" (year_of_manufacturer r)
  ∧ Reading.field_is rows "condition" (condition r)
  ∧ Reading.field_is rows "unit price" (price r).
Proof.
  cbv zeta.
  assert (Hdata : ∀ key, Scraper.table_data soup !! key
                         = Spec.last_value key (Soup.find_all (Soup.has_tag "tr") soup)).
  { intros key. unfold Scraper.table_data. rewrite fold_table_step, lookup_empty.
    by destruct (Spec.last_value key _). }
  split; [apply row_pair_reads|].
  split; [intros key value; rewrite Hdata; apply last_value_reading|].
  split; [intros key; rewrite Hdata; apply last_value_no_reading|].
  split.
  - intros key value value' (i & row & Hi & Hr & Hlater) (i' & row' & Hi' & Hr' & Hlater').
    destruct (Nat.lt_trichotomy i i') as [Hlt|[->|Hlt]].
    + by destruct (Hlater i' row' value' Hlt Hi').
    + assert (row' = row) as -> by congruence. by eapply reads_functional.
    + by destruct (Hlater' i row value Hlt Hi).
  - unfold Scraper.scrape_soup.
    cbn [manufacturer model year_of_manufacturer condition price].
    repeat split; apply dict_get_field_is.
Qed.

Lemma table_data_last_row_wins_witness :
  Reading.reads (MoreSamples.three_cell_row " CONDITION " " Used ") "condition" "Used"
  ∧ Scraper.row_pair (MoreSamples.three_cell_row " CONDITION " " Used ")
    = Some ("condition", "Used")%string
  ∧ Scraper.table_data MoreSamples.wide_table_soup !! "condition"%string = Some "Used"%string
  ∧ condition (Scraper.scrape_soup Samples.simple_join "u" "1" MoreSamples.wide_table_soup)
    = "Used"%string.
Proof.
  pose proof (table_data_last_row_wins Samples.simple_join "u" "1"
                MoreSamples.wide_table_soup) as H.
  cbv zeta in H. destruct H as (Hrow & Hsome & _ & Huniq & _ & _ & _ & Hcond & _).
  assert (Hreads : Reading.reads (MoreSamples.three_cell_row " CONDITION " " Used ")
                     "condition" "Used").
  { eexists _, _, _. split; [vm_compute; reflexivity|].
    split; [vm_compute; reflexivity|]. split; [vm_compute; reflexivity|].
    split; discriminate. }
  assert (Hlast : Reading.last_reading
                    (Soup.find_all (Soup.has_tag "tr") MoreSamples.wide_table_soup)
                    "condition" "Used").
  { exists 1%nat, (MoreSamples.three_cell_row " CONDITION " " Used ").
    split; [vm_compute; reflexivity|]. split; [exact Hreads|].
    intros j row' value' Hj Hrow' (c0 & c1 & more & Hc & _ & -> & _ & Hv).
    destruct j as [|[|[|[|j]]]]; try lia; vm_compute in Hrow'; try discriminate;
      injection Hrow' as <-; vm_compute in Hc; try discriminate.
    injection Hc as <- <- <-. apply Hv. vm_compute. reflexivity. }
  split; [exact Hreads|]. split; [by apply Hrow|]. split; [by apply Hsome|].
  destruct Hcond as [Hc|[Hnone _]].
  - by apply (Huniq "condition"%string).
  - exfalso. apply (Hnone (MoreSamples.three_cell_row " CONDITION " " Used ") "Used"%string);
      [|exact Hreads].
    vm_compute. right. by left.
Defined.

Lemma extract_category_none (soup : node) :
  Spec.no_category_source soup → Scraper.extract_category soup = "".
Proof.
  unfold Spec.no_category_source, Scraper.extract_category. cbv zeta.
  induction 1 as [|a links Ha _ IH]; [reflexivity|].
  cbn [map]. cbv zeta in Ha.
  destruct Ha as [E|[E|E]]; rewrite E.
  - rewrite (filter_cons_False _ "") by (by intros ?). exact IH.
  - rewrite (filter_cons_True _ "View") by reflexivity.
    rewrite (filter_cons_False _ "View") by (by intros ?). exact IH.
  - rewrite (filter_cons_True _ "Search-by-Specs") by reflexivity.
    rewrite (filter_cons_False _ "Search-by-Specs") by (by intros ?). exact IH.
Qed.

Lemma dict_get_none (soup : node) (key : string) :
  Spec.no_table_source key soup → Scraper.dict_get (Scraper.table_data soup) key = "".
Proof. unfold Spec.no_table_source. intros H. by rewrite dict_get_table_data, H. Qed.

(** C3, as stated, fails for [location]: the page below has no source for
    any field, and its record carries the fixed default location, not the
    empty string. *)
Lemma empty_page_location_not_empty :
  ∃ r, Scraper.scrape_listing (fun _ => Some Samples.empty_soup) Samples.simple_join "1" = Some r
       ∧ title r = "" ∧ description r = "" ∧ category r = ""
       ∧ location r = "Regensburg, Germany" ∧ location r ≠ "".
Proof. eexists. split; [reflexivity|]. vm_compute. by repeat split. Qed.

(** C3, amended.  Every record that is returned for a fetched detail
    page has strings in all its fields; its [location] is always the fixed
    default "Regensburg, Germany"; each of the other free-text fields is
    the empty string when the heuristics for it find nothing on the page.
    For the title that is: the heading, the title tag and the bold texts
    each yield no text, and in particular a page that lacks all three title
    sources. *)
Theorem scrape_listing_defaults (get_soup : string -> option node)
    (urljoin : string -> string -> string) (item_no : string) (soup : node)
    (r : listing_data (list string)) :
  get_soup (Scraper.BASE_URL ++ "iinfo.cfm?ItemNo=" ++ item_no)%string = Some soup →
  Scraper.scrape_listing get_soup urljoin item_no = Some r →
  location r = "Regensburg, Germany"
  ∧ (Reading.title_finds_nothing soup → title r = "")
  ∧ (Spec.no_title_source soup → Reading.title_finds_nothing soup ∧ title r = "")
  ∧ (Spec.no_table_source "condition" soup → condition r = "")
  ∧ (Spec.no_category_source soup → category r = "")
  ∧ (Spec.no_type_source soup → listing_type r = "")
  ∧ (Spec.no_table_source "unit price" soup → price r = "")
  ∧ (Spec.no_table_source "manufacturer" soup → manufacturer r = "")
  ∧ (Spec.no_table_source "model" soup → model r = "")
  ∧ (Spec.no_table_source "year of manufacture" soup → year_of_manufacturer r = "")
  ∧ (Spec.no_description_source soup → description r = "").
Proof.
  intros Hfetch. unfold Scraper.scrape_listing. rewrite Hfetch. intros [= <-].
  unfold Scraper.scrape_soup.
  cbn [title condition location category listing_type price manufacturer model
       year_of_manufacturer description].
  assert (Htitle : Reading.title_finds_nothing soup →
            PyStr.strip (Re.sub Scraper.re_spaces " "
              (Scraper.title_option3 soup
                 (Scraper.title_option2 soup (Scraper.title_option1 soup)))) = ""%string).
  { intros (H1 & H2 & H3).
    assert (E1 : Scraper.title_option1 soup = ""%string).
    { unfold Scraper.title_option1, Scraper.extract_text.
      destruct (head _) as [e|]; [by apply H1 | reflexivity]. }
    rewrite E1.
    assert (E2 : Scraper.title_option2 soup "" = ""%string).
    { unfold Scraper.title_option2, Scraper.extract_text. cbn [PyStr.truthy].
      destruct (Soup.find _ soup) as [e|]; [by apply H2 | reflexivity]. }
    rewrite E2. unfold Scraper.title_option3. cbn [PyStr.truthy]. by rewrite H3. }
  assert (Hnone : Spec.no_title_source soup → Reading.title_finds_nothing soup).
  { intros (H1 & H2 & H3). split; [|split; [|exact H3]].
    - intros e He. congruence.
    - intros e He. congruence. }
  split; [reflexivity|]. split; [exact Htitle|].
  split; [intros H; split; [by apply Hnone | by apply Htitle, Hnone]|].
  repeat split; try apply dict_get_none; trivial.
  - apply extract_category_none.
  - intros H. unfold Scraper.extract_listing_type. unfold Spec.no_type_source in H.
    destruct (head _) as [type_elem|]; [|reflexivity].
    destruct (H type_elem eq_refl) as [-> ->]. reflexivity.
  - intros H. unfold Scraper.extract_description.
    unfold Spec.no_description_source in H. rewrite H. reflexivity.
Qed.

Lemma scrape_listing_defaults_witness :
  ∃ r, Scraper.scrape_listing (fun _ => Some MoreSamples.blank_title_soup)
         Samples.simple_join "7" = Some r
    ∧ location r = "Regensburg, Germany"
    ∧ title r = "" ∧ condition r = "" ∧ category r = "" ∧ listing_type r = ""
    ∧ price r = "" ∧ year_of_manufacturer r = "" ∧ description r = "".
Proof.
  eexists. split; [reflexivity|].
  destruct (scrape_listing_defaults (fun _ => Some MoreSamples.blank_title_soup)
              Samples.simple_join "7" MoreSamples.blank_title_soup _ eq_refl eq_refl)
    as (Hloc & Ht & _ & Hc & Hcat & Hty & Hp & _ & _ & Hy & Hd).
  split; [exact Hloc|].
  split; [apply Ht; split; [|split];
          [intros e He; vm_compute in He; injection He as <-; vm_compute; reflexivity
          |intros e He; vm_compute in He; injection He as <-; vm_compute; reflexivity
          |vm_compute; reflexivity]|].
  split; [apply Hc; vm_compute; reflexivity|].
  split; [apply Hcat; vm_compute; constructor|].
  split; [apply Hty; intros type_elem; vm_compute; discriminate|].
  split; [apply Hp; vm_compute; reflexivity|].
  split; [apply Hy; vm_compute; reflexivity|].
  apply Hd; vm_compute; reflexivity.
Defined.

(* ===================================================================== *)
(** ** Properties of the job registry                                    *)
(* ===================================================================== *)

Section Registry.

Import Main.

Lemma set_status_twice (job_id : string) (d d' : gmap string pyval) (reg : registry) :
  set_status job_id d (set_status job_id d' reg) = set_status job_id d reg.
Proof. unfold set_status. simpl. by rewrite insert_insert_eq. Qed.

Lemma progress_callback_set (job_id : string) (current total : nat) (url : string)
    (d : gmap string pyval) (reg : registry) :
  progress_callback job_id current total url (set_status job_id d reg)
  = set_status job_id (running_dict (Z.of_nat current) (Z.of_nat total) (shorten url)) reg.
Proof. unfold progress_callback. apply set_status_twice. Qed.

Lemma status_get_set_status (job_id key : string) (d : gmap string pyval) (reg : registry) :
  status_get job_id key (set_status job_id d reg) = default (VInt 0) (d !! key).
Proof. unfold status_get, set_status. simpl. by rewrite lookup_insert_eq. Qed.

Lemma status_get_set_data (job_id key : string) (l : list (listing_data string))
    (reg : registry) :
  status_get job_id key (set_data job_id l reg) = status_get job_id key reg.
Proof. reflexivity. Qed.

Lemma get_scraping_status_set (job_id : string) (d : gmap string pyval) (reg : registry) :
  get_scraping_status job_id (set_status job_id d reg) = OK d.
Proof. unfold get_scraping_status, set_status. simpl. by rewrite lookup_insert_eq. Qed.

Lemma get_scraped_data_set_status (job_id job_id' : string) (d : gmap string pyval)
    (reg : registry) :
  get_scraped_data job_id (set_status job_id' d reg) = get_scraped_data job_id reg.
Proof. reflexivity. Qed.

Variable discover_listings : option Z -> option string -> outcome (list string).
Variable scrape_listing : string -> outcome (option (listing_data (list string))).

(** When the item loop raises, the failing call is the extraction of some
    item; every item before it was extracted, and the registry differs from
    the one before the loop only in the status of the job, which is the
    report made just before the failing call. *)
Lemma scrape_items_raises (job_id : string) (total : nat) (item_numbers : list string) :
  ∀ (i : nat) (all_data : list (listing_data (list string))) (d : gmap string pyval)
    (reg reg1 : registry) (e : exn),
    Batch.scrape_items scrape_listing (Some (progress_callback job_id)) total i
      item_numbers all_data (set_status job_id d reg) = (reg1, Raises e) →
    ∃ k item_no,
      item_numbers !! k = Some item_no
      ∧ scrape_listing item_no = Raises e
      ∧ (∀ j item, (j < k)%nat → item_numbers !! j = Some item →
           ∃ r, scrape_listing item = Returns r)
      ∧ reg1 = set_status job_id
                 (running_dict (Z.of_nat (i + k + 1)) (Z.of_nat total)
                    (shorten ("Item " ++ item_no)%string)) reg.
Proof.
  induction item_numbers as [|item_no rest IH]; intros i all_data d reg reg1 e.
  - discriminate.
  - cbn [Batch.scrape_items]. unfold bind at 1. unfold Batch.report, modify.
    rewrite progress_callback_set.
    unfold bind at 1. unfold lift at 1.
    destruct (scrape_listing item_no) as [listing|e'|] eqn:Hscrape.
    + intros H. apply IH in H as (k & item & Hk & He & Hbefore & ->).
      exists (S k), item. split; [exact Hk|]. split; [exact He|]. split.
      * intros [|j] it Hj; simpl.
        -- intros [= <-]. eauto.
        -- apply Hbefore. lia.
      * do 3 f_equal. lia.
    + intros [= <- <-]. exists 0%nat, item_no.
      split; [reflexivity|]. split; [exact Hscrape|]. split; [intros; lia|].
      do 3 f_equal. lia.
    + discriminate.
Qed.

End Registry.

Lemma running_dict_progress (progress total : Z) (current_url : string) :
  Main.running_dict progress total current_url !! "progress" = Some (VInt progress)
  ∧ Main.running_dict progress total current_url !! "total" = Some (VInt total).
Proof. unfold Main.running_dict. by simplify_map_eq. Qed.

Lemma completed_dict_lookup (progress total : pyval) (count : nat) :
  let d := Main.completed_dict progress total count in
  d !! "status" = Some (VStr "completed")
  ∧ d !! "progress" = Some progress ∧ d !! "total" = Some total
  ∧ d !! "count" = Some (VInt (Z.of_nat count))
  ∧ d !! "error" = None.
Proof. unfold Main.completed_dict. cbv zeta. by simplify_map_eq. Qed.

Lemma error_dict_lookup (e : exn) (progress total : pyval) :
  let d := Main.error_dict e progress total in
  d !! "status" = Some (VStr "error")
  ∧ d !! "error" = Some (VStr (exn_str e))
  ∧ d !! "traceback" = Some (VStr (exn_traceback e))
  ∧ d !! "progress" = Some progress ∧ d !! "total" = Some total.
Proof. unfold Main.error_dict. cbv zeta. by simplify_map_eq. Qed.

(** C6.  When discovery returns no identifier, the job ends with status
    [completed], count 0 and progress 0 of 0, no error entry, and the empty
    list as its stored result. *)
Theorem run_scraping_job_no_listings
    (discover_listings : option Z -> option string -> outcome (list string))
    (scrape_listing : string -> outcome (option (listing_data (list string))))
    (job_id : string) (max_listings : option Z) (reg : registry) :
  discover_listings max_listings None = Returns [] →
  let after := Main.run_scraping_job discover_listings scrape_listing job_id max_listings reg in
  after.2 = true
  ∧ Main.get_scraped_data job_id after.1 = OK []
  ∧ ∃ d, Main.get_scraping_status job_id after.1 = OK d
       ∧ d !! "status" = Some (VStr "completed")
       ∧ d !! "progress" = Some (VInt 0) ∧ d !! "total" = Some (VInt 0)
       ∧ d !! "count" = Some (VInt 0)
       ∧ d !! "error" = None.
Proof.
  intros Hnone. cbv zeta. unfold Main.run_scraping_job, Batch.scrape_all_listings.
  unfold bind, lift. rewrite Hnone. cbn [Batch.scrape_items ret map length fst snd].
  split; [reflexivity|]. split.
  - unfold Main.get_scraped_data, Main.set_status, Main.set_data. simpl.
    by rewrite lookup_insert_eq.
  - eexists. split; [apply get_scraping_status_set|].
    rewrite !status_get_set_data, !status_get_set_status.
    destruct (running_dict_progress 0 0 "Initializing...") as [-> ->].
    apply (completed_dict_lookup (VInt 0) (VInt 0) 0).
Qed.

Lemma run_scraping_job_no_listings_witness :
  let after :=
    Main.run_scraping_job (Surplus.discover_listings Samples.dead_site 1)
      (Surplus.scrape_listing Samples.dead_site Samples.simple_join)
      "20240101_120000" None (Main.start_scraping "20240101_120000" (mk_registry ∅ ∅)) in
  after.2 = true
  ∧ Main.get_scraped_data "20240101_120000" after.1 = OK []
  ∧ ∃ d, Main.get_scraping_status "20240101_120000" after.1 = OK d
       ∧ d !! "status" = Some (VStr "completed")
       ∧ d !! "progress" = Some (VInt 0) ∧ d !! "total" = Some (VInt 0)
       ∧ d !! "count" = Some (VInt 0)
       ∧ d !! "error" = None.
Proof.
  apply (run_scraping_job_no_listings (Surplus.discover_listings Samples.dead_site 1)
           (Surplus.scrape_listing Samples.dead_site Samples.simple_join)).
  reflexivity.
Defined.

(** C7, as stated, fails: a job whose pass raises, run under an id that
    already has a stored result, ends with status [error] while asking for
    its result still delivers the earlier record. *)
Lemma failed_job_serves_earlier_result :
  let after :=
    Main.run_scraping_job (fun _ _ => Raises Samples.boom)
      (Surplus.scrape_listing Samples.dead_site Samples.simple_join)
      "20240101_120000" None
      (Main.start_scraping "20240101_120000" MoreSamples.reused_id_registry) in
  Main.get_scraping_status "20240101_120000" after.1
  = OK (Main.error_dict Samples.boom (VInt 0) (VInt 0))
  ∧ Main.get_scraped_data "20240101_120000" after.1 = OK [MoreSamples.some_record]
  ∧ Main.get_scraped_data "20240101_120000" after.1 ≠ HTTPException 404 "Data not found".
Proof. vm_compute. by repeat split. Qed.

(** C7, amended.  When the pass of a job raises, the job ends with status
    [error], the message and the trace of the exception, and the progress
    counters of the last report: 0 of 0 when discovery raised, [k + 1] of
    the number of identifiers when the extraction of the item at index [k]
    raised.  The result store is left as it was: asking for the result of
    the job gives what it gave before the job ran, which is 404 when no
    result was stored under the id of the job. *)
Theorem run_scraping_job_failure
    (discover_listings : option Z -> option string -> outcome (list string))
    (scrape_listing : string -> outcome (option (listing_data (list string))))
    (job_id : string) (max_listings : option Z) (reg : registry) (e : exn) :
  (Batch.scrape_all_listings discover_listings scrape_listing
     (Some (Main.progress_callback job_id)) max_listings None
     (Main.set_status job_id (Main.running_dict 0 0 "Initializing...") reg)).2 = Raises e →
  let after := Main.run_scraping_job discover_listings scrape_listing job_id max_listings reg in
  after.2 = true
  ∧ scraped_data_store after.1 = scraped_data_store reg
  ∧ Main.get_scraped_data job_id after.1 = Main.get_scraped_data job_id reg
  ∧ (scraped_data_store reg !! job_id = None →
     Main.get_scraped_data job_id after.1 = HTTPException 404 "Data not found")
  ∧ ∃ (d : gmap string pyval) (progress total : nat),
      Main.get_scraping_status job_id after.1 = OK d
      ∧ d !! "status" = Some (VStr "error")
      ∧ d !! "error" = Some (VStr (exn_str e))
      ∧ d !! "traceback" = Some (VStr (exn_traceback e))
      ∧ d !! "progress" = Some (VInt (Z.of_nat progress))
      ∧ d !! "total" = Some (VInt (Z.of_nat total))
      ∧ ((discover_listings max_listings None = Raises e ∧ progress = 0%nat ∧ total = 0%nat)
         ∨ ∃ item_numbers k item_no,
             discover_listings max_listings None = Returns item_numbers
             ∧ item_numbers !! k = Some item_no
             ∧ scrape_listing item_no = Raises e
             ∧ (∀ j item, (j < k)%nat → item_numbers !! j = Some item →
                  ∃ r, scrape_listing item = Returns r)
             ∧ progress = (k + 1)%nat ∧ total = length item_numbers).
Proof.
  cbv zeta. unfold Main.run_scraping_job.
  destruct (Batch.scrape_all_listings _ _ _ _ _ _) as [reg1 [all_data|e'|]] eqn:Hpass;
    cbn [snd]; try discriminate.
  intros [= ->]. cbn [fst snd].
  unfold Batch.scrape_all_listings, bind in Hpass. unfold lift at 1 in Hpass.
  destruct (discover_listings max_listings None) as [item_numbers|e'|] eqn:Hdisc;
    [|injection Hpass as <- <-|discriminate].
  - apply scrape_items_raises in Hpass as (k & item_no & Hk & He & Hbefore & ->).
    split; [reflexivity|]. split; [reflexivity|]. split; [reflexivity|]. split.
    + intros Hfresh. rewrite get_scraped_data_set_status. unfold Main.get_scraped_data.
      simpl. by rewrite Hfresh.
    + eexists _, (0 + k + 1)%nat, (length item_numbers).
      split; [apply get_scraping_status_set|].
      rewrite !status_get_set_status.
      destruct (running_dict_progress (Z.of_nat (0 + k + 1)) (Z.of_nat (length item_numbers))
                  (Main.shorten ("Item " ++ item_no)%string)) as [-> ->].
      cbn [default].
      destruct (error_dict_lookup e (VInt (Z.of_nat (0 + k + 1)))
                  (VInt (Z.of_nat (length item_numbers)))) as (? & ? & ? & ? & ?).
      repeat (split; [assumption|]). right.
      exists item_numbers, k, item_no. by repeat split.
  - split; [reflexivity|]. split; [reflexivity|]. split; [reflexivity|]. split.
    + intros Hfresh. rewrite get_scraped_data_set_status. unfold Main.get_scraped_data.
      simpl. by rewrite Hfresh.
    + eexists _, 0%nat, 0%nat. split; [apply get_scraping_status_set|].
      rewrite !status_get_set_status.
      destruct (running_dict_progress 0 0 "Initializing...") as [-> ->]. cbn [default].
      destruct (error_dict_lookup e' (VInt 0) (VInt 0)) as (? & ? & ? & ? & ?).
      repeat (split; [assumption|]). by left.
Qed.

Lemma run_scraping_job_failure_witness :
  let scrape item_no :=
    if String.eqb item_no "2" then Raises Samples.boom
    else Surplus.scrape_listing Samples.dead_site Samples.simple_join item_no in
  let after :=
    Main.run_scraping_job (Surplus.discover_listings Samples.five_item_site 1) scrape
      "20240101_120000" None (Main.start_scraping "20240101_120000" (mk_registry ∅ ∅)) in
  Main.get_scraped_data "20240101_120000" after.1 = HTTPException 404 "Data not found"
  ∧ Main.get_scraping_status "20240101_120000" after.1
    = OK (Main.error_dict Samples.boom (VInt 2) (VInt 5)).
Proof.
  cbv zeta.
  destruct (run_scraping_job_failure (Surplus.discover_listings Samples.five_item_site 1)
              (fun item_no =>
                 if String.eqb item_no "2" then Raises Samples.boom
                 else Surplus.scrape_listing Samples.dead_site Samples.simple_join item_no)
              "20240101_120000" None (Main.start_scraping "20240101_120000" (mk_registry ∅ ∅))
              Samples.boom)
    as (_ & _ & _ & Hdata & _).
  - vm_compute. reflexivity.
  - split; [apply Hdata; reflexivity|]. vm_compute. reflexivity.
Defined.

Lemma lookup_del_if_present {V : Type} (job_id other : string) (d : gmap string V) :
  Main.del_if_present job_id d !! other = if decide (other = job_id) then None else d !! other.
Proof.
  unfold Main.del_if_present. case_bool_decide as H; case_decide as Hk; subst.
  - apply lookup_delete_eq.
  - by apply lookup_delete_ne.
  - by apply eq_None_not_Some.
  - reflexivity.
Qed.

Lemma del_if_present_absent {V : Type} (job_id : string) (d : gmap string V) :
  d !! job_id = None → Main.del_if_present job_id d = d.
Proof.
  intros H. unfold Main.del_if_present. rewrite H.
  rewrite bool_decide_eq_false_2; [reflexivity|]. by intros [? ?].
Qed.

(** C8.  [delete_data] answers without an error and leaves neither a
    status nor a result for the id: both look-ups give 404 afterwards.  It
    leaves the entries of every other id alone, does nothing when the id is
    unknown, and may be repeated. *)
Theorem delete_data_removes_both (job_id : string) (reg : registry) :
  let after := Main.delete_data job_id reg in
  after.2 = OK "Data deleted"
  ∧ Main.get_scraping_status job_id after.1 = HTTPException 404 "Job not found"
  ∧ Main.get_scraped_data job_id after.1 = HTTPException 404 "Data not found"
  ∧ (∀ other, other ≠ job_id →
       Main.get_scraping_status other after.1 = Main.get_scraping_status other reg
       ∧ Main.get_scraped_data other after.1 = Main.get_scraped_data other reg)
  ∧ (scraped_data_store reg !! job_id = None → scraping_status reg !! job_id = None →
     after.1 = reg)
  ∧ Main.delete_data job_id after.1 = after.
Proof.
  cbv zeta. unfold Main.delete_data. cbn [fst snd].
  unfold Main.get_scraping_status, Main.get_scraped_data.
  cbn [scraped_data_store scraping_status].
  destruct reg as [store status]. cbn [scraped_data_store scraping_status].
  repeat split.
  - rewrite lookup_del_if_present. by rewrite decide_True.
  - rewrite lookup_del_if_present. by rewrite decide_True.
  - rewrite lookup_del_if_present. by rewrite decide_False.
  - rewrite lookup_del_if_present. by rewrite decide_False.
  - intros Hs Ht. by rewrite !del_if_present_absent.
  - rewrite !(del_if_present_absent job_id (Main.del_if_present job_id _));
      [reflexivity| |]; rewrite lookup_del_if_present; by rewrite decide_True.
Qed.

Lemma delete_data_removes_both_witness :
  (Main.delete_data "unknown" (Main.start_scraping "20240101_120000" (mk_registry ∅ ∅))).1
  = Main.start_scraping "20240101_120000" (mk_registry ∅ ∅)
  ∧ Main.get_scraping_status "20240101_120000"
      (Main.delete_data "20240101_120000"
         (Main.start_scraping "20240101_120000" (mk_registry ∅ ∅))).1
    = HTTPException 404 "Job not found".
Proof.
  split.
  - apply (delete_data_removes_both "unknown"
             (Main.start_scraping "20240101_120000" (mk_registry ∅ ∅)));
      vm_compute; reflexivity.
  - apply (delete_data_removes_both "20240101_120000"
             (Main.start_scraping "20240101_120000" (mk_registry ∅ ∅))).
Defined.

(* ===================================================================== *)
(** ** Further properties of the batch and of the jobs                   *)
(* ===================================================================== *)

Section Batches.

Context {S : Type}.
Variable discover_listings : option Z -> option string -> outcome (list string).
Variable scrape_listing : string -> outcome (option (listing_data (list string))).
Variable extracted : string -> option (listing_data (list string)).

Lemma scrape_items_returns (cb : option (nat -> nat -> string -> S -> S)) (total : nat)
    (item_numbers : list string) :
  (∀ item_no, item_no ∈ item_numbers → scrape_listing item_no = Returns (extracted item_no)) →
  ∀ i all_data s,
    Batch.scrape_items scrape_listing cb total i item_numbers all_data s
    = (Shape.after_reports cb total i item_numbers s, Returns (all_data ++ omap extracted item_numbers)).
Proof.
  induction item_numbers as [|item_no rest IH]; intros Hall i all_data s.
  - cbn. rewrite app_nil_r. by destruct cb.
  - cbn [Batch.scrape_items]. unfold bind at 1.
    assert (Hrep : Batch.report cb (i + 1) total ("Item " ++ item_no)%string s
                   = (Shape.after_reports cb total i [item_no] s, Returns tt))
      by (by destruct cb).
    rewrite Hrep. unfold bind at 1. unfold lift at 1.
    rewrite (Hall item_no) by left.
    rewrite IH by (intros x Hx; apply Hall; by right).
    f_equal.
    + by destruct cb.
    + f_equal. cbn [omap list_omap]. fold (omap extracted rest).
      destruct (extracted item_no); [by rewrite <- app_assoc | reflexivity].
Qed.

End Batches.

(** X1.  When discovery returns and no extraction raises, the batch
    returns the records of the items whose page could be fetched, in the
    order of discovery; an item without a record is skipped and cannot end
    the batch; the callback has been applied once for every item, in
    order, with the index plus one, the number of identifiers and the label
    of the item. *)
Theorem scrape_all_listings_skips_misses {S : Type}
    (discover_listings : option Z -> option string -> outcome (list string))
    (scrape_listing : string -> outcome (option (listing_data (list string))))
    (extracted : string -> option (listing_data (list string)))
    (cb : option (nat -> nat -> string -> S -> S))
    (max_items : option Z) (category_menuid : option string)
    (item_numbers : list string) (s : S) :
  discover_listings max_items category_menuid = Returns item_numbers →
  (∀ item_no, item_no ∈ item_numbers → scrape_listing item_no = Returns (extracted item_no)) →
  Batch.scrape_all_listings discover_listings scrape_listing cb max_items category_menuid s
  = (Shape.after_reports cb (length item_numbers) 0 item_numbers s,
     Returns (omap extracted item_numbers))
  ∧ (length (omap extracted item_numbers) ≤ length item_numbers)%nat.
Proof.
  intros Hdisc Hall. split.
  - unfold Batch.scrape_all_listings, bind. unfold lift at 1. rewrite Hdisc.
    by rewrite (scrape_items_returns scrape_listing extracted cb _ _ Hall).
  - clear. induction item_numbers as [|x l IH]; [done|].
    cbn [omap list_omap]. fold (omap extracted l). destruct (extracted x); simpl; lia.
Qed.

Lemma scrape_all_listings_skips_misses_witness :
  (Batch.scrape_all_listings (Surplus.discover_listings Samples.five_item_site 1)
     (Surplus.scrape_listing Samples.dead_site Samples.simple_join)
     (Some (fun (current total : nat) (_ : string) (_ : nat * nat) => (current, total)))
     None None (0, 0)%nat)
  = ((5, 5)%nat, Returns []).
Proof.
  destruct (scrape_all_listings_skips_misses
              (Surplus.discover_listings Samples.five_item_site 1)
              (Surplus.scrape_listing Samples.dead_site Samples.simple_join)
              (fun _ => None)
              (Some (fun (current total : nat) (_ : string) (_ : nat * nat) => (current, total)))
              None None ["1"; "2"; "3"; "4"; "5"]%string (0, 0)%nat) as [H _].
  - vm_compute. reflexivity.
  - intros item_no _. reflexivity.
  - rewrite H. reflexivity.
Defined.

Lemma reports_progress_callback (job_id : string) (total : nat) (item_numbers : list string) :
  ∀ (i : nat) (d : gmap string pyval) (reg : registry),
    Shape.reports (Main.progress_callback job_id) total i item_numbers
      (Main.set_status job_id d reg)
    = Main.set_status job_id
        (match last item_numbers with
         | Some item_no =>
             Main.running_dict (Z.of_nat (i + length item_numbers)) (Z.of_nat total)
               (Main.shorten ("Item " ++ item_no)%string)
         | None => d
         end) reg.
Proof.
  induction item_numbers as [|item_no rest IH]; intros i d reg; [reflexivity|].
  cbn [Shape.reports]. rewrite progress_callback_set, IH, last_cons.
  destruct (last rest) as [y|] eqn:Hlast.
  - do 3 f_equal; simpl; lia.
  - apply last_None in Hlast as ->. do 3 f_equal; simpl; lia.
Qed.

Lemma scrape_items_status_only
    (scrape_listing : string -> outcome (option (listing_data (list string))))
    (job_id : string) (total : nat) (item_numbers : list string) :
  ∀ (i : nat) (all_data : list (listing_data (list string))) (d : gmap string pyval)
    (reg : registry),
    ∃ d',
      (Batch.scrape_items scrape_listing (Some (Main.progress_callback job_id)) total i
         item_numbers all_data (Main.set_status job_id d reg)).1
      = Main.set_status job_id d' reg.
Proof.
  induction item_numbers as [|item_no rest IH]; intros i all_data d reg.
  - by exists d.
  - cbn [Batch.scrape_items]. unfold bind at 1. unfold Batch.report, modify.
    rewrite progress_callback_set. unfold bind at 1. unfold lift at 1.
    destruct (scrape_listing item_no) as [listing|e|]; [apply IH|eauto|eauto].
Qed.

Lemma scrape_all_listings_status_only
    (discover_listings : option Z -> option string -> outcome (list string))
    (scrape_listing : string -> outcome (option (listing_data (list string))))
    (job_id : string) (max_items : option Z) (d : gmap string pyval) (reg : registry) :
  ∃ d',
    (Batch.scrape_all_listings discover_listings scrape_listing
       (Some (Main.progress_callback job_id)) max_items None
       (Main.set_status job_id d reg)).1
    = Main.set_status job_id d' reg.
Proof.
  unfold Batch.scrape_all_listings, bind. unfold lift at 1.
  destruct (discover_listings max_items None) as [item_numbers|e|]; [|eauto|eauto].
  apply scrape_items_status_only.
Qed.

(** X2.  When discovery returns [n] identifiers and no extraction raises,
    the job ends with status [completed]: its stored result is the list of
    the records that could be fetched, flattened, in the order of
    discovery; [count] is the number of these records; [progress] and
    [total] are both [n], also when some or all pages could not be
    fetched. *)
Theorem run_scraping_job_completed
    (discover_listings : option Z -> option string -> outcome (list string))
    (scrape_listing : string -> outcome (option (listing_data (list string))))
    (extracted : string -> option (listing_data (list string)))
    (job_id : string) (max_listings : option Z) (reg : registry)
    (item_numbers : list string) :
  discover_listings max_listings None = Returns item_numbers →
  (∀ item_no, item_no ∈ item_numbers → scrape_listing item_no = Returns (extracted item_no)) →
  let after := Main.run_scraping_job discover_listings scrape_listing job_id max_listings reg in
  let records := omap extracted item_numbers in
  after.2 = true
  ∧ Main.get_scraped_data job_id after.1 = OK (map Main.flatten records)
  ∧ ∃ d, Main.get_scraping_status job_id after.1 = OK d
       ∧ d !! "status" = Some (VStr "completed")
       ∧ d !! "progress" = Some (VInt (Z.of_nat (length item_numbers)))
       ∧ d !! "total" = Some (VInt (Z.of_nat (length item_numbers)))
       ∧ d !! "count" = Some (VInt (Z.of_nat (length records)))
       ∧ d !! "current_url" = Some (VStr "Completed").
Proof.
  intros Hdisc Hall.
  assert (Hpass :
    Batch.scrape_all_listings discover_listings scrape_listing
      (Some (Main.progress_callback job_id)) max_listings None
      (Main.set_status job_id (Main.running_dict 0 0 "Initializing...") reg)
    = (Main.set_status job_id
         (match last item_numbers with
          | Some item_no =>
              Main.running_dict (Z.of_nat (0 + length item_numbers))
                (Z.of_nat (length item_numbers))
                (Main.shorten ("Item " ++ item_no)%string)
          | None => Main.running_dict 0 0 "Initializing..."
          end) reg,
       Returns (omap extracted item_numbers))).
  { unfold Batch.scrape_all_listings, bind. unfold lift at 1. rewrite Hdisc.
    rewrite (scrape_items_returns scrape_listing extracted _ _ _ Hall).
    cbn [Shape.after_reports app]. by rewrite reports_progress_callback. }
  cbv zeta. unfold Main.run_scraping_job. rewrite Hpass. cbn [fst snd].
  split; [reflexivity|]. split.
  - unfold Main.get_scraped_data, Main.set_status, Main.set_data. simpl.
    by rewrite lookup_insert_eq.
  - eexists. split; [apply get_scraping_status_set|].
    rewrite !status_get_set_data, !status_get_set_status, length_map.
    assert (Hp : ∀ key n, (key = "progress" ∧ n = 0) ∨ (key = "total" ∧ n = 0) →
              default (VInt 0)
                (match last item_numbers with
                 | Some item_no =>
                     Main.running_dict (Z.of_nat (0 + length item_numbers))
                       (Z.of_nat (length item_numbers))
                       (Main.shorten ("Item " ++ item_no)%string)
                 | None => Main.running_dict 0 0 "Initializing..."
                 end !! key)
              = VInt (Z.of_nat (length item_numbers))).
    { intros key n Hkey. destruct (last item_numbers) eqn:Hlast.
      - destruct (running_dict_progress (Z.of_nat (0 + length item_numbers))
                    (Z.of_nat (length item_numbers))
                    (Main.shorten ("Item " ++ s)%string)) as [H1 H2].
        destruct Hkey as [[-> _]|[-> _]]; [by rewrite H1 | by rewrite H2].
      - apply last_None in Hlast as ->.
        destruct (running_dict_progress 0 0 "Initializing...") as [H1 H2].
        destruct Hkey as [[-> _]|[-> _]]; [by rewrite H1 | by rewrite H2]. }
    rewrite (Hp "progress" 0) by (left; done).
    rewrite (Hp "total" 0) by (right; done).
    unfold Main.completed_dict. by simplify_map_eq.
Qed.

Lemma run_scraping_job_completed_witness :
  let after :=
    Main.run_scraping_job (Surplus.discover_listings Samples.five_item_site 1)
      (Surplus.scrape_listing Samples.dead_site Samples.simple_join)
      "20240101_120000" None (mk_registry ∅ ∅) in
  Main.get_scraped_data "20240101_120000" after.1 = OK []
  ∧ ∃ d, Main.get_scraping_status "20240101_120000" after.1 = OK d
       ∧ d !! "progress" = Some (VInt 5) ∧ d !! "count" = Some (VInt 0).
Proof.
  destruct (run_scraping_job_completed
              (Surplus.discover_listings Samples.five_item_site 1)
              (Surplus.scrape_listing Samples.dead_site Samples.simple_join)
              (fun _ => None) "20240101_120000" None (mk_registry ∅ ∅)
              ["1"; "2"; "3"; "4"; "5"]%string)
    as (_ & Hdata & d & Hd & _ & Hp & _ & Hc & _).
  - vm_compute. reflexivity.
  - intros item_no _. reflexivity.
  - cbv zeta. split; [exact Hdata|]. exists d. by repeat split.
Defined.

(** X3.  A job touches the entries of its own id only: after
    [run_scraping_job], whatever the pass did, the status and the result of
    every other id are what they were; the job itself has a status; and
    unless that status is [completed] the result store is unchanged. *)
Theorem run_scraping_job_isolated
    (discover_listings : option Z -> option string -> outcome (list string))
    (scrape_listing : string -> outcome (option (listing_data (list string))))
    (job_id : string) (max_listings : option Z) (reg : registry) :
  let after := Main.run_scraping_job discover_listings scrape_listing job_id max_listings reg in
  (∀ other, other ≠ job_id →
     Main.get_scraping_status other after.1 = Main.get_scraping_status other reg
     ∧ Main.get_scraped_data other after.1 = Main.get_scraped_data other reg)
  ∧ ∃ d, Main.get_scraping_status job_id after.1 = OK d
       ∧ (d !! "status" ≠ Some (VStr "completed") →
          scraped_data_store after.1 = scraped_data_store reg).
Proof.
  cbv zeta. unfold Main.run_scraping_job.
  destruct (scrape_all_listings_status_only discover_listings scrape_listing job_id
              max_listings (Main.running_dict 0 0 "Initializing...") reg) as [d' Hd'].
  destruct (Batch.scrape_all_listings _ _ _ _ _ _) as [reg1 [all_data|e|]];
    cbn [fst snd] in *; subst reg1.
  - split.
    + intros other Hne. unfold Main.get_scraping_status, Main.get_scraped_data.
      unfold Main.set_status, Main.set_data. simpl. by rewrite !lookup_insert_ne.
    + eexists. split; [apply get_scraping_status_set|].
      intros H. exfalso. apply H. unfold Main.completed_dict. by simplify_map_eq.
  - split.
    + intros other Hne. unfold Main.get_scraping_status, Main.get_scraped_data.
      unfold Main.set_status. simpl. by rewrite !lookup_insert_ne.
    + eexists. split; [apply get_scraping_status_set|]. reflexivity.
  - split.
    + intros other Hne. unfold Main.get_scraping_status, Main.get_scraped_data.
      unfold Main.set_status. simpl. by rewrite !lookup_insert_ne.
    + eexists. split; [apply get_scraping_status_set|]. reflexivity.
Qed.

Lemma run_scraping_job_isolated_witness :
  let reg := Main.set_data "old" [] (Main.start_scraping "old" (mk_registry ∅ ∅)) in
  let after :=
    Main.run_scraping_job (fun _ _ => Raises Samples.boom)
      (Surplus.scrape_listing Samples.dead_site Samples.simple_join) "new" None reg in
  Main.get_scraping_status "old" after.1 = OK Main.pending_dict
  ∧ Main.get_scraped_data "old" after.1 = OK [].
Proof.
  cbv zeta.
  destruct (run_scraping_job_isolated (fun _ _ => Raises Samples.boom)
              (Surplus.scrape_listing Samples.dead_site Samples.simple_join) "new" None
              (Main.set_data "old" [] (Main.start_scraping "old" (mk_registry ∅ ∅))))
    as [Hother _].
  destruct (Hother "old") as [-> ->]; [discriminate|].
  split; vm_compute; reflexivity.
Defined.

(* ===================================================================== *)
(** ** Further properties of the pagination                              *)
(* ===================================================================== *)

Lemma length_fold_add_item (links : list node) (item_numbers : list string) :
  (length (fold_left Scraper.add_item links item_numbers)
   ≤ length item_numbers + length links)%nat.
Proof.
  revert item_numbers. induction links as [|link links IH]; intros item_numbers; simpl; [lia|].
  etransitivity; [apply IH|]. unfold Scraper.add_item.
  destruct (Scraper.item_no_of _); [|lia].
  case_bool_decide; [lia|]. rewrite length_app. simpl. lia.
Qed.

Lemma max_reached_unlimited (max_items : option Z) (item_numbers : list string) :
  max_items = None ∨ max_items = Some 0 → Scraper.max_reached max_items item_numbers = None.
Proof. by intros [-> | ->]. Qed.

Lemma max_reached_Some (m m' : Z) (item_numbers : list string) :
  Scraper.max_reached (Some m) item_numbers = Some m' →
  m' = m ∧ m ≠ 0 ∧ m ≤ Z.of_nat (length item_numbers).
Proof.
  unfold Scraper.max_reached. destruct (negb (m =? 0) && _) eqn:E; [|discriminate].
  intros [= <-]. apply andb_prop in E as [E1 E2].
  apply negb_true_iff, Z.eqb_neq in E1. apply Z.leb_le in E2. done.
Qed.

Lemma max_reached_None (m : Z) (item_numbers : list string) :
  m ≠ 0 → Scraper.max_reached (Some m) item_numbers = None →
  Z.of_nat (length item_numbers) < m.
Proof.
  intros Hm. unfold Scraper.max_reached.
  destruct (negb (m =? 0) && _) eqn:E; [discriminate|]. intros _.
  apply andb_false_iff in E as [E|E].
  - apply negb_false_iff, Z.eqb_eq in E. done.
  - apply Z.leb_gt in E. lia.
Qed.

Section Unlimited.

Variable get_soup : string -> option node.
Variable max_items : option Z.
Variable category_menuid : option string.
Hypothesis unlimited : max_items = None ∨ max_items = Some 0.

Lemma discover_loop_unlimited (k : nat) :
  ∀ j,
    (∀ i, (i < k)%nat → ¬ Spec.last_page get_soup category_menuid (j + i)) →
    Spec.last_page get_soup category_menuid (j + k) →
    Scraper.discover_loop get_soup max_items category_menuid (S k)
      (Spec.first_seen (Spec.visited_ids get_soup category_menuid j)) (Spec.offset j)
    = Some (Spec.first_seen (Spec.visited_ids get_soup category_menuid (j + S k))).
Proof.
  induction k as [|k IH]; intros j Hfull Hlast.
  - replace (j + 0)%nat with j in Hlast by lia.
    replace (j + 1)%nat with (S j) by lia.
    cbn [Scraper.discover_loop]. rewrite discover_turn_eq. cbv zeta.
    unfold Spec.last_page in Hlast. apply Nat.ltb_lt in Hlast. rewrite Hlast.
    rewrite fold_add_item. fold (Spec.page_ids get_soup category_menuid (Spec.offset j)).
    by rewrite <- visited_ids_S.
  - cbn [Scraper.discover_loop]. rewrite discover_turn_eq. cbv zeta.
    assert (Hj : ¬ Spec.last_page get_soup category_menuid j).
    { specialize (Hfull 0%nat). replace (j + 0)%nat with j in Hfull by lia.
      apply Hfull. lia. }
    unfold Spec.last_page in Hj. apply Nat.nlt_ge, Nat.ltb_ge in Hj. rewrite Hj.
    rewrite max_reached_unlimited by exact unlimited.
    rewrite fold_add_item. fold (Spec.page_ids get_soup category_menuid (Spec.offset j)).
    rewrite <- visited_ids_S, offset_S.
    replace (j + S (S k))%nat with (S j + S k)%nat by lia.
    apply IH.
    + intros i Hi. replace (S j + i)%nat with (j + S i)%nat by lia. apply Hfull. lia.
    + by replace (S j + k)%nat with (j + S k)%nat by lia.
Qed.

End Unlimited.

(** X4.  Without a limit ([max_items] is [None] or 0, which the code
    treats alike) discovery walks the index up to and including the first
    page that has fewer than 100 anchors or cannot be fetched, and returns
    exactly the identifiers of these pages, each once, in the order in
    which they were first seen. *)
Theorem discover_listings_unlimited (get_soup : string -> option node)
    (max_items : option Z) (category_menuid : option string) (k fuel : nat) :
  max_items = None ∨ max_items = Some 0 →
  (∀ i, (i < k)%nat → ¬ Spec.last_page get_soup category_menuid i) →
  Spec.last_page get_soup category_menuid k →
  (k < fuel)%nat →
  Scraper.discover_listings get_soup max_items category_menuid fuel
  = Some (Spec.first_seen (Spec.visited_ids get_soup category_menuid (S k))).
Proof.
  intros Hmax Hfull Hlast Hfuel. unfold Scraper.discover_listings.
  apply (discover_loop_mono _ _ _ (S k)); [lia|].
  apply (discover_loop_unlimited get_soup max_items category_menuid Hmax k 0 Hfull Hlast).
Qed.

Lemma discover_listings_unlimited_witness :
  Scraper.discover_listings Samples.two_page_site (Some 0) None 5
  = Some (Spec.first_seen (Spec.visited_ids Samples.two_page_site None 2)).
Proof.
  apply (discover_listings_unlimited Samples.two_page_site (Some 0) None 1 5).
  - by right.
  - intros i Hi. assert (i = 0)%nat as -> by lia. vm_compute. lia.
  - vm_compute. lia.
  - lia.
Defined.

Lemma length_slice_to {A : Type} (l : list A) (m : Z) :
  0 ≤ m ≤ Z.of_nat (length l) → length (Scraper.slice_to l m) = Z.to_nat m.
Proof.
  intros [H0 Hm]. unfold Scraper.slice_to.
  destruct (0 <=? m) eqn:E; [|apply Z.leb_gt in E; lia].
  rewrite length_take. lia.
Qed.

Lemma discover_loop_bounded (get_soup : string -> option node) (m : Z)
    (category_menuid : option string) (fuel : nat) :
  0 < m →
  ∀ item_numbers start_rec l,
    Z.of_nat (length item_numbers) < m →
    Scraper.discover_loop get_soup (Some m) category_menuid fuel item_numbers start_rec = Some l →
    Z.of_nat (length l) ≤ m + 98.
Proof.
  intros Hm. induction fuel as [|fuel IH]; intros item_numbers start_rec l Hlen; [discriminate|].
  cbn [Scraper.discover_loop]. rewrite discover_turn_eq. cbv zeta.
  pose proof (length_fold_add_item (Spec.page_links get_soup category_menuid start_rec)
                item_numbers) as Hadd.
  destruct (_ <? _)%nat eqn:Hshort.
  - intros [= <-]. apply Nat.ltb_lt in Hshort. unfold Scraper.items_per_page in Hshort. lia.
  - destruct (Scraper.max_reached _ _) as [m'|] eqn:Hmax.
    + intros [= <-]. apply max_reached_Some in Hmax as (-> & _ & Hle).
      rewrite length_slice_to by lia. lia.
    + apply IH. apply max_reached_None in Hmax; lia.
Qed.

(** X5.  With a positive [max_items = m] discovery returns at most
    [m + 98] identifiers: it holds fewer than [m] when it requests a page,
    and only a page with fewer than 100 anchors can end it without the
    cut.  When the page that ends it has 100 anchors or more, the result
    has exactly [m] identifiers. *)
Theorem discover_listings_bounded (get_soup : string -> option node) (m : Z)
    (category_menuid : option string) :
  0 < m →
  (∀ fuel l,
     Scraper.discover_listings get_soup (Some m) category_menuid fuel = Some l →
     Z.of_nat (length l) ≤ m + 98)
  ∧ (∀ item_numbers start_rec l,
       (Scraper.items_per_page
        ≤ length (Spec.page_links get_soup category_menuid start_rec))%nat →
       Scraper.discover_turn get_soup (Some m) category_menuid item_numbers start_rec
       = Scraper.Break l →
       Z.of_nat (length l) = m).
Proof.
  intros Hm. split.
  - intros fuel l. unfold Scraper.discover_listings.
    apply discover_loop_bounded; simpl; lia.
  - intros item_numbers start_rec l Hfull. rewrite discover_turn_eq. cbv zeta.
    apply Nat.ltb_ge in Hfull. rewrite Hfull.
    destruct (Scraper.max_reached _ _) as [m'|] eqn:Hmax; [|discriminate].
    intros [= <-]. apply max_reached_Some in Hmax as (-> & _ & Hle).
    rewrite length_slice_to by lia. lia.
Qed.

Lemma discover_listings_bounded_witness :
  Scraper.discover_listings Samples.two_page_site (Some 50) None 1
  = Some (map PyStr.of_nat (seq 1 50))
  ∧ Z.of_nat (length (map PyStr.of_nat (seq 1 50))) ≤ 50 + 98.
Proof.
  assert (E : Scraper.discover_listings Samples.two_page_site (Some 50) None 1
              = Some (map PyStr.of_nat (seq 1 50))) by (vm_compute; reflexivity).
  split; [exact E|].
  apply (proj1 (discover_listings_bounded Samples.two_page_site 50 None ltac:(lia)) 1%nat _ E).
Defined.

(** X6.  A negative [max_items = m] is truthy and never exceeds the
    count, so discovery looks at the first page only: a first page of 100
    anchors or more ends it with the identifiers of that page less the last
    [-m] of them, and a shorter first page ends it with all of them. *)
Theorem discover_listings_negative_max (get_soup : string -> option node) (m : Z)
    (category_menuid : option string) (fuel : nat) :
  m < 0 →
  let ids := Spec.first_seen (Spec.page_ids get_soup category_menuid 1) in
  Scraper.discover_listings get_soup (Some m) category_menuid (S fuel)
  = Some (if (length (Spec.page_links get_soup category_menuid 1)
              <? Scraper.items_per_page)%nat
          then ids
          else take (length ids - Z.to_nat (- m)) ids).
Proof.
  intros Hm. cbv zeta. unfold Scraper.discover_listings. cbn [Scraper.discover_loop].
  rewrite discover_turn_eq. cbv zeta.
  assert (E : fold_left Scraper.add_item (Spec.page_links get_soup category_menuid 1) []
              = Spec.first_seen (Spec.page_ids get_soup category_menuid 1))
    by apply (fold_add_item _ []).
  rewrite !E.
  destruct (_ <? _)%nat; [reflexivity|].
  unfold Scraper.max_reached.
  replace (negb (m =? 0)) with true by (symmetry; apply negb_true_iff, Z.eqb_neq; lia).
  replace (m <=? _) with true by (symmetry; apply Z.leb_le; lia).
  cbn [andb]. unfold Scraper.slice_to.
  replace (0 <=? m) with false by (symmetry; apply Z.leb_gt; lia).
  do 2 f_equal. lia.
Qed.

Lemma discover_listings_negative_max_witness :
  Scraper.discover_listings Samples.two_page_site (Some (-1)) None 3
  = Some (map PyStr.of_nat (seq 1 99)).
Proof.
  rewrite (discover_listings_negative_max Samples.two_page_site (-1) None 2) by lia.
  vm_compute. reflexivity.
Defined.

(* ===================================================================== *)
(** ** Further properties of the detail-page extraction                  *)
(* ===================================================================== *)

Lemma split_head_query_free (s : string) :
  PyStr.contains "?" (PyStr.split_head "?" s) = false.
Proof.
  induction s as [|c t IH]; [reflexivity|].
  cbn [PyStr.split_head]. destruct (Ascii.eqb c "?") eqn:E; [reflexivity|].
  cbn [PyStr.contains PyStr.startswith]. rewrite Ascii.eqb_sym, E. exact IH.
Qed.

Section PictureSources.

Variable urljoin : string -> string -> string.

Lemma add_picture_pics_of (src : string) (srcs : list string) (st : Scraper.pics) :
  Shape.pics_of urljoin srcs st →
  Shape.pics_of urljoin (srcs ++ [PyStr.split_head "?" src])
    (Scraper.add_picture urljoin src st).
Proof.
  intros ->. unfold Shape.pics_of, Scraper.add_picture. cbn [fst snd].
  rewrite map_app. f_equal. rewrite list_to_set_app_L. simpl.
  by rewrite (right_id_L ∅ (∪)), (comm_L (∪)).
Qed.

End PictureSources.

Section PicturePasses.

Variable urljoin : string -> string -> string.
Variable attr : string.
Variable step : Scraper.pics -> node -> Scraper.pics.

(** A pass either leaves the state alone or takes the attribute of the
    element, which then was not in [seen_urls]. *)
Hypothesis step_takes :
  ∀ st link,
    step st link = st
    ∨ ∃ v, Soup.get attr link = Some v ∧ (v ∉ st.2)
           ∧ step st link = Scraper.add_picture urljoin v st.

Lemma fold_pictures (links : list node) :
  ∀ srcs st,
    Shape.pics_of urljoin srcs st →
    ∃ more,
      Shape.pics_of urljoin (srcs ++ more) (fold_left step links st)
      ∧ Forall (fun src => PyStr.contains "?" src = false) more
      ∧ (NoDup srcs →
         (∀ link v, link ∈ links → Soup.get attr link = Some v → PyStr.split_head "?" v = v) →
         NoDup (srcs ++ more)).
Proof.
  induction links as [|link links IH]; intros srcs st Hst.
  - exists []. rewrite app_nil_r. by repeat split.
  - cbn [fold_left]. destruct (step_takes st link) as [->|(v & Hv & Hnew & ->)].
    + destruct (IH srcs st Hst) as (more & Hfold & Hq & Hdup).
      exists more. split; [exact Hfold|]. split; [exact Hq|].
      intros Hnd Hfree. apply Hdup; [exact Hnd|].
      intros l w Hl. apply Hfree. by right.
    + destruct (IH _ _ (add_picture_pics_of urljoin v srcs st Hst)) as (more & Hfold & Hq & Hdup).
      exists (PyStr.split_head "?" v :: more).
      replace (srcs ++ PyStr.split_head "?" v :: more)
        with ((srcs ++ [PyStr.split_head "?" v]) ++ more) by (by rewrite <- app_assoc).
      split; [exact Hfold|]. split.
      * constructor; [apply split_head_query_free | exact Hq].
      * intros Hnd Hfree. apply Hdup.
        -- rewrite (Hfree link v) by (done || left).
           apply NoDup_app. split; [exact Hnd|]. split; [|apply NoDup_singleton].
           intros x Hx Hxv. apply list_elem_of_singleton in Hxv as ->.
           apply Hnew. rewrite Hst. cbn [snd]. by apply elem_of_list_to_set.
        -- intros l w Hl. apply Hfree. by right.
Qed.

End PicturePasses.

Lemma pictures_addl_step_takes (urljoin : string -> string -> string) (st : Scraper.pics)
    (link : node) :
  Scraper.pictures_addl_step urljoin st link = st
  ∨ ∃ v, Soup.get "href" link = Some v ∧ (v ∉ st.2)
         ∧ Scraper.pictures_addl_step urljoin st link = Scraper.add_picture urljoin v st.
Proof.
  unfold Scraper.pictures_addl_step. destruct (Soup.get "href" link) as [href|]; [|by left].
  destruct (PyStr.truthy href); [|by left]. cbn [andb].
  case_bool_decide as Hin; [by left|]. right. by exists href.
Qed.

Lemma pictures_fallback_step_takes (urljoin : string -> string -> string) (st : Scraper.pics)
    (img : node) :
  Scraper.pictures_fallback_step urljoin st img = st
  ∨ ∃ v, Soup.get "src" img = Some v ∧ (v ∉ st.2)
         ∧ Scraper.pictures_fallback_step urljoin st img = Scraper.add_picture urljoin v st.
Proof.
  unfold Scraper.pictures_fallback_step. destruct (Soup.get "src" img) as [src|]; [|by left].
  destruct (PyStr.truthy src); [|by left]. cbn [andb].
  case_bool_decide as Hin; [by left|]. cbn [negb].
  destruct (Re.matches _ _); [|by left]. right. by exists src.
Qed.

Lemma elem_of_find_all (p : node -> bool) (soup n : node) :
  n ∈ Soup.find_all p soup → In n (Soup.descendants soup).
Proof.
  unfold Soup.find_all. rewrite list_elem_of_filter. intros [_ H].
  by apply list_elem_of_In.
Qed.

(** X7.  The pictures of a record are the resolved forms of a list of
    sources none of which contains a question mark; when the page has a
    preview image with a non-empty [src], its stripped source comes first;
    and when no [src] or [href] of the page carries a query, the sources
    are pairwise different. *)
Theorem extract_pictures_sources (urljoin : string -> string -> string) (soup : node) :
  ∃ srcs,
    Scraper.extract_pictures urljoin soup = map (urljoin Scraper.BASE_URL) srcs
    ∧ Forall (fun src => PyStr.contains "?" src = false) srcs
    ∧ (∀ main_img src,
         head (Soup.find_all (Soup.sel "img" "imgprev") soup) = Some main_img →
         Soup.get "src" main_img = Some src → src ≠ "" →
         head srcs = Some (PyStr.split_head "?" src))
    ∧ (Shape.no_query soup → NoDup srcs).
Proof.
  unfold Scraper.extract_pictures.
  assert (Hmain : ∃ first,
            Shape.pics_of urljoin first (Scraper.pictures_main urljoin soup ([], ∅))
            ∧ Forall (fun src => PyStr.contains "?" src = false) first
            ∧ NoDup first
            ∧ (∀ main_img src,
                 head (Soup.find_all (Soup.sel "img" "imgprev") soup) = Some main_img →
                 Soup.get "src" main_img = Some src → src ≠ "" →
                 first = [PyStr.split_head "?" src])).
  { unfold Scraper.pictures_main.
    destruct (head _) as [main_img|];
      [|exists []; split; [reflexivity|]; split; [constructor|];
        split; [constructor|]; intros; discriminate].
    destruct (Soup.get "src" main_img) as [src|] eqn:Hsrc;
      [|exists []; split; [reflexivity|]; split; [constructor|];
        split; [constructor|]; intros ? ? [= <-]; congruence].
    destruct src as [|c t].
    - exists []. split; [reflexivity|]. split; [constructor|]. split; [constructor|].
      intros ? ? [= <-] Hs Hne. congruence.
    - exists [PyStr.split_head "?" (String c t)]. split.
      + apply (add_picture_pics_of urljoin _ [] ([], ∅)). reflexivity.
      + split; [constructor; [apply split_head_query_free|constructor]|].
        split; [apply NoDup_singleton|]. intros ? ? [= <-] Hs _. congruence. }
  destruct Hmain as (first & Hfirst & Hq1 & Hnd1 & Hhead).
  destruct (fold_pictures urljoin "href" (Scraper.pictures_addl_step urljoin)
              (pictures_addl_step_takes urljoin)
              (Soup.find_all (Soup.sel "a" "addlImage") soup) first _ Hfirst)
    as (more2 & H2 & Hq2 & Hnd2).
  destruct (fold_pictures urljoin "src" (Scraper.pictures_fallback_step urljoin)
              (pictures_fallback_step_takes urljoin)
              (Soup.find_all Scraper.is_resource_img soup) (first ++ more2) _ H2)
    as (more3 & H3 & Hq3 & Hnd3).
  exists ((first ++ more2) ++ more3).
  unfold Scraper.pictures_fallback, Scraper.pictures_addl. rewrite H3. cbn [fst].
  split; [reflexivity|]. split; [by repeat apply Forall_app_2|]. split.
  - intros main_img src Hm Hs Hne. rewrite (Hhead main_img src Hm Hs Hne). reflexivity.
  - intros Hfree. apply Hnd3.
    + apply Hnd2; [exact Hnd1|]. intros link v Hl Hv.
      apply (Hfree link); [by eapply elem_of_find_all | by right].
    + intros img v Hl Hv.
      apply (Hfree img); [by eapply elem_of_find_all | by left].
Qed.

Lemma extract_pictures_sources_witness :
  Scraper.extract_pictures Samples.simple_join MoreSamples.gallery_soup
  = ["https://surplus.infineon.com/clientresources/a.jpg";
     "https://surplus.infineon.com/clientresources/b.jpg"]%string
  ∧ ∃ srcs,
      Scraper.extract_pictures Samples.simple_join MoreSamples.gallery_soup
      = map (Samples.simple_join Scraper.BASE_URL) srcs
      ∧ head srcs = Some "clientresources/a.jpg"%string ∧ NoDup srcs.
Proof.
  split; [vm_compute; reflexivity|].
  destruct (extract_pictures_sources Samples.simple_join MoreSamples.gallery_soup)
    as (srcs & Hsrcs & _ & Hhead & Hnd).
  exists srcs. split; [exact Hsrcs|]. split.
  - apply (Hhead (Elem "img" ["imgprev"] [("src", "clientresources/a.jpg")] [])
             "clientresources/a.jpg"%string); [vm_compute; reflexivity|reflexivity|discriminate].
  - apply Hnd. intros n v Hn Hv. vm_compute in Hn.
    repeat (destruct Hn as [<-|Hn]; [vm_compute in Hv; destruct Hv as [Hv|Hv];
      try discriminate; injection Hv as <-; reflexivity|]).
    destruct Hn.
Defined.

(* ===================================================================== *)
(** ** White space in the extracted texts                                *)
(* ===================================================================== *)

(** A greedy run of one character class, when nothing follows it in the
    pattern, takes the longest run there is. *)
Lemma rmatch_star_chr (p : ascii -> bool) (bol : bool) (s : string) :
  Re.rmatch (Re.Star (Re.Chr p)) bol s (fun _ rest => Some rest)
  = Some (Shape.drop_while p s).
Proof.
  cbn [Re.rmatch].
  match goal with
  | |- ?f (String.length s) bol s = _ =>
      assert (H : ∀ n b s0, (String.length s0 ≤ n)%nat →
                            f n b s0 = Some (Shape.drop_while p s0))
  end.
  { induction n as [|n IH]; intros b s0 Hn.
    - destruct s0; [reflexivity|simpl in Hn; lia].
    - destruct s0 as [|c t]; [reflexivity|].
      cbn [Shape.drop_while]. destruct (p c) eqn:Hp; [|reflexivity].
      replace (String.length t <? String.length (String c t))%nat with true
        by (symmetry; apply Nat.ltb_lt; simpl; lia).
      rewrite IH by (simpl in Hn; lia). reflexivity. }
  by apply H.
Qed.

Lemma drop_while_isspace (s : string) : Shape.drop_while PyStr.isspace s = PyStr.lstrip s.
Proof. induction s as [|c t IH]; [reflexivity|]. simpl. by rewrite IH. Qed.

Lemma length_drop_while (p : ascii -> bool) (s : string) :
  (String.length (Shape.drop_while p s) ≤ String.length s)%nat.
Proof. induction s as [|c t IH]; simpl; [lia|]. destruct (p c); simpl; lia. Qed.

Lemma match_here_spaces (bol : bool) (s : string) :
  Re.match_here Scraper.re_spaces bol s
  = match s with
    | String c t => if PyStr.isspace c then Some (PyStr.lstrip t) else None
    | EmptyString => None
    end.
Proof.
  unfold Re.match_here, Scraper.re_spaces, Re.Plus, Re.space.
  cbn [Re.rmatch]. destruct s as [|c t]; [reflexivity|].
  destruct (PyStr.isspace c); [|reflexivity].
  pose proof (rmatch_star_chr PyStr.isspace false t) as H. cbn [Re.rmatch] in H.
  rewrite H. by rewrite drop_while_isspace.
Qed.

Lemma spaced_weaken (s : string) : Shape.spaced true s = true → Shape.spaced false s = true.
Proof.
  destruct s as [|c t]; [done|]. simpl. destruct (PyStr.isspace c); [|done].
  rewrite andb_false_r. discriminate.
Qed.

Lemma lstrip_head (s : string) :
  match PyStr.lstrip s with
  | String c _ => PyStr.isspace c = false
  | EmptyString => True
  end.
Proof.
  induction s as [|c t IH]; [exact I|]. simpl.
  destruct (PyStr.isspace c) eqn:E; [exact IH | exact E].
Qed.

(** After [re.sub(r'\s+', ' ', s)] every white-space character is a
    single blank. *)
Lemma spaced_sub_spaces (fuel : nat) :
  ∀ (s : string) (bol : bool),
    (String.length s < fuel)%nat →
    Shape.spaced
      (match s with String c _ => negb (PyStr.isspace c) | EmptyString => true end)
      (Re.sub_aux fuel Scraper.re_spaces " " bol s) = true.
Proof.
  induction fuel as [|fuel IH]; intros s bol Hlen; [lia|].
  cbn [Re.sub_aux]. rewrite match_here_spaces.
  destruct s as [|c t]; [reflexivity|].
  destruct (PyStr.isspace c) eqn:Hc; cbn [negb].
  - pose proof (length_drop_while PyStr.isspace t) as Hdrop.
    rewrite drop_while_isspace in Hdrop.
    replace (String.length (PyStr.lstrip t) <? String.length (String c t))%nat with true
      by (symmetry; apply Nat.ltb_lt; simpl; lia).
    change (" " ++ ?x)%string with (String " "%char x). cbn [Shape.spaced]. cbn.
    specialize (IH (PyStr.lstrip t) false ltac:(simpl in Hlen; lia)).
    pose proof (lstrip_head t) as Hhead.
    destruct (PyStr.lstrip t) as [|c' t'] eqn:El; [exact IH|].
    by rewrite Hhead in IH.
  - cbn [Shape.spaced]. rewrite Hc.
    specialize (IH t false ltac:(simpl in Hlen; lia)).
    destruct t as [|c' t']; [by apply spaced_weaken|].
    destruct (negb (PyStr.isspace c')); [by apply spaced_weaken | exact IH].
Qed.

Lemma ends_clean_rstrip (s : string) : Shape.ends_clean (PyStr.rstrip s) = true.
Proof.
  induction s as [|c t IH]; [reflexivity|]. cbn [PyStr.rstrip].
  destruct (PyStr.rstrip t) as [|c' t'] eqn:E.
  - destruct (PyStr.isspace c) eqn:Hc; [reflexivity|]. simpl. by rewrite Hc.
  - exact IH.
Qed.

Lemma spaced_rstrip (s : string) :
  ∀ b, Shape.spaced b s = true → Shape.spaced b (PyStr.rstrip s) = true.
Proof.
  induction s as [|c t IH]; intros b; [done|]. cbn [PyStr.rstrip Shape.spaced].
  destruct (PyStr.isspace c) eqn:Hc.
  - intros H. apply andb_prop in H as [H1 H2].
    specialize (IH true H2).
    destruct (PyStr.rstrip t) as [|c' t']; [reflexivity|].
    cbn [Shape.spaced]. rewrite Hc. cbn [Shape.spaced] in IH. by rewrite H1, IH.
  - intros H. specialize (IH false H).
    destruct (PyStr.rstrip t) as [|c' t']; [simpl; by rewrite Hc|].
    cbn [Shape.spaced]. rewrite Hc. exact IH.
Qed.

Lemma spaced_lstrip (s : string) :
  Shape.spaced false s = true → Shape.spaced true (PyStr.lstrip s) = true.
Proof.
  destruct s as [|c t]; [done|]. cbn [Shape.spaced PyStr.lstrip].
  destruct (PyStr.isspace c) eqn:Hc.
  - intros H. apply andb_prop in H as [_ H].
    destruct t as [|c' t']; [reflexivity|]. cbn [PyStr.lstrip].
    cbn [Shape.spaced] in H. destruct (PyStr.isspace c') eqn:Hc'.
    + rewrite andb_false_r in H. discriminate.
    + cbn [Shape.spaced]. by rewrite Hc'.
  - intros H. cbn [Shape.spaced]. by rewrite Hc.
Qed.

Lemma tidy_strip (s : string) : Shape.spaced false s = true → Shape.tidy (PyStr.strip s) = true.
Proof.
  intros H. unfold Shape.tidy, PyStr.strip.
  by rewrite spaced_rstrip, ends_clean_rstrip by (by apply spaced_lstrip).
Qed.

Lemma tidy_normalised (s : string) :
  Shape.tidy (PyStr.strip (Re.sub Scraper.re_spaces " " s)) = true.
Proof.
  apply tidy_strip. unfold Re.sub.
  pose proof (spaced_sub_spaces (S (String.length s)) s true ltac:(lia)) as H.
  destruct s as [|c t]; [exact H|].
  destruct (negb (PyStr.isspace c)); [by apply spaced_weaken | exact H].
Qed.

Lemma all_chars_app (p : ascii -> bool) (s t : string) :
  Shape.all_chars p (s ++ t)%string = Shape.all_chars p s && Shape.all_chars p t.
Proof. induction s as [|c s IH]; [reflexivity|]. simpl. by rewrite IH, andb_assoc. Qed.

(** The words [split()] gives are not empty and hold no white space. *)
Lemma split_ws_aux_words (s : string) :
  ∀ cur,
    Shape.all_chars (fun c => negb (PyStr.isspace c)) cur = true →
    Forall (fun w => w ≠ ""%string
                     ∧ Shape.all_chars (fun c => negb (PyStr.isspace c)) w = true)
           (PyStr.split_ws_aux cur s).
Proof.
  induction s as [|c t IH]; intros cur Hcur; cbn [PyStr.split_ws_aux].
  - destruct cur; [constructor|]. constructor; [|constructor]. by split.
  - destruct (PyStr.isspace c) eqn:Hc.
    + apply Forall_app_2; [|by apply IH].
      destruct cur; [constructor|]. constructor; [|constructor]. by split.
    + apply IH. rewrite all_chars_app, Hcur. simpl. by rewrite Hc.
Qed.

Lemma spaced_word_app (w r : string) :
  Shape.all_chars (fun c => negb (PyStr.isspace c)) w = true →
  ∀ b, Shape.spaced b (w ++ r)%string
       = match w with EmptyString => Shape.spaced b r | _ => Shape.spaced false r end.
Proof.
  induction w as [|c w IH]; intros Hw b; [reflexivity|].
  simpl in Hw. apply andb_prop in Hw as [Hc Hw]. apply negb_true_iff in Hc.
  change (String c w ++ r)%string with (String c (w ++ r)%string).
  cbn [Shape.spaced]. rewrite Hc, (IH Hw). by destruct w.
Qed.

Lemma ends_clean_word_app (w r : string) :
  r ≠ ""%string → Shape.ends_clean (w ++ r)%string = Shape.ends_clean r.
Proof.
  intros Hr. induction w as [|c w IH]; [reflexivity|].
  change (String c w ++ r)%string with (String c (w ++ r)%string).
  cbn [Shape.ends_clean]. rewrite IH.
  destruct (w ++ r)%string eqn:E; [|reflexivity].
  destruct w; [by destruct Hr | discriminate].
Qed.

Lemma ends_clean_word (w : string) :
  Shape.all_chars (fun c => negb (PyStr.isspace c)) w = true → Shape.ends_clean w = true.
Proof.
  induction w as [|c w IH]; [reflexivity|]. simpl.
  intros H. apply andb_prop in H as [Hc Hw]. destruct w; [exact Hc | by apply IH].
Qed.

Lemma append_empty (w : string) : (w ++ "")%string = w.
Proof.
  induction w as [|c w IH]; [reflexivity|].
  change (String c w ++ "")%string with (String c (w ++ "")%string). by rewrite IH.
Qed.

Lemma tidy_join_words (ws : list string) :
  Forall (fun w => w ≠ ""%string
                   ∧ Shape.all_chars (fun c => negb (PyStr.isspace c)) w = true) ws →
  Shape.tidy (PyStr.join " " ws) = true ∧ (ws ≠ [] → PyStr.join " " ws ≠ ""%string).
Proof.
  unfold Shape.tidy, PyStr.join.
  induction 1 as [|w ws [Hne Hw] Hws [IH IHne]]; [done|].
  cbn [String.concat]. destruct ws as [|w' ws'].
  - split; [|by intros _].
    pose proof (spaced_word_app w "" Hw true) as H. rewrite append_empty in H.
    rewrite H, (ends_clean_word w Hw). by destruct w.
  - assert (Hrest : String.concat " " (w' :: ws') ≠ ""%string) by (by apply IHne).
    apply andb_prop in IH as [IH1 IH2]. split.
    + rewrite (spaced_word_app w _ Hw), ends_clean_word_app by discriminate.
      assert (Hs : Shape.spaced false (" " ++ String.concat " " (w' :: ws'))%string = true).
      { change (" " ++ ?x)%string with (String " "%char x). cbn [Shape.spaced]. cbn.
        exact IH1. }
      rewrite Hs.
      change (" " ++ ?x)%string with (String " "%char x). cbn [Shape.ends_clean].
      destruct (String.concat " " (w' :: ws')) eqn:E; [by destruct Hrest|].
      destruct w; [by destruct Hne|]. by rewrite IH2.
    + intros _. destruct w; [by destruct Hne | discriminate].
Qed.

Lemma strip_tidy (s : string) : Shape.tidy s = true → PyStr.strip s = s.
Proof.
  unfold Shape.tidy, PyStr.strip. intros H. apply andb_prop in H as [Hs He].
  assert (Hl : PyStr.lstrip s = s).
  { destruct s as [|c t]; [reflexivity|]. simpl in *.
    destruct (PyStr.isspace c); [|reflexivity].
    rewrite andb_false_r in Hs. discriminate. }
  rewrite Hl. clear Hs Hl. induction s as [|c t IH]; [reflexivity|].
  cbn [PyStr.rstrip]. destruct t as [|c' t'].
  - simpl in *. apply negb_true_iff in He. by rewrite He.
  - rewrite IH by exact He. reflexivity.
Qed.

Lemma tidy_clean_value (value : string) : Shape.tidy (Scraper.clean_value value) = true.
Proof.
  unfold Scraper.clean_value. cbv zeta.
  match goal with
  | |- Shape.tidy (PyStr.strip (PyStr.join " " (PyStr.split_ws ?v))) = true =>
      destruct (tidy_join_words (PyStr.split_ws v)) as [H _];
        [apply split_ws_aux_words; reflexivity|]
  end.
  by rewrite strip_tidy.
Qed.

(** X8.  The listing type of a record is one of "For Sale", "Wanted" and
    the empty string.  It is "For Sale" exactly when the text of the
    [h2.HL span.HL] heading contains "offered" in any case, also when it
    contains "wanted" as well, and "Wanted" exactly when it contains
    "wanted" and not "offered". *)
Theorem listing_type_values (urljoin : string -> string -> string)
    (listing_url item_no : string) (soup : node) :
  let r := Scraper.scrape_soup urljoin listing_url item_no soup in
  let heading :=
    head (Soup.select_desc (Soup.sel "h2" "HL") (Soup.sel "span" "HL") soup) in
  let mentions (word : string) (e : node) :=
    PyStr.contains word (PyStr.lower (Soup.get_text e)) in
  (listing_type r = "For Sale"%string ∨ listing_type r = "Wanted"%string
   ∨ listing_type r = ""%string)
  ∧ (listing_type r = "For Sale"%string
     ↔ ∃ e, heading = Some e ∧ mentions "offered"%string e = true)
  ∧ (listing_type r = "Wanted"%string
     ↔ ∃ e, heading = Some e ∧ mentions "offered"%string e = false
            ∧ mentions "wanted"%string e = true).
Proof.
  cbv zeta. unfold Scraper.scrape_soup. cbn [listing_type].
  unfold Scraper.extract_listing_type, Scraper.extract_text.
  destruct (head _) as [e|].
  - destruct (PyStr.contains "offered" _) eqn:Ho; [|destruct (PyStr.contains "wanted" _) eqn:Hw].
    + split; [by left|]. split; split.
      * intros _. by exists e.
      * done.
      * discriminate.
      * intros (e' & [= <-] & Ho' & _). congruence.
    + split; [right; by left|]. split; split.
      * discriminate.
      * intros (e' & [= <-] & Ho'). congruence.
      * intros _. by exists e.
      * done.
    + split; [right; by right|]. split; split.
      * discriminate.
      * intros (e' & [= <-] & Ho'). congruence.
      * discriminate.
      * intros (e' & [= <-] & _ & Hw'). congruence.
  - split; [right; by right|]. split; split; try discriminate.
    + by intros (e & ? & _).
    + by intros (e & ? & _).
Qed.

Lemma listing_type_values_witness :
  listing_type (Scraper.scrape_soup Samples.simple_join "u" "1" MoreSamples.gallery_soup)
  = "For Sale"%string.
Proof.
  apply (listing_type_values Samples.simple_join "u" "1" MoreSamples.gallery_soup).
  eexists. split; [vm_compute; reflexivity|]. vm_compute. reflexivity.
Defined.

(** X9.  The title and the description of a record are tidy: they hold
    no white space but single blanks between words, and none at either
    end.  When the [h1.HL1 span.HL1] heading gives a text, the title is
    that text alone, normalised; the page title and the bold texts are not
    consulted. *)
Theorem title_and_description_tidy (urljoin : string -> string -> string)
    (listing_url item_no : string) (soup : node) :
  let r := Scraper.scrape_soup urljoin listing_url item_no soup in
  Shape.tidy (title r) = true
  ∧ Shape.tidy (description r) = true
  ∧ (Scraper.title_option1 soup ≠ ""%string →
     title r = PyStr.strip (Re.sub Scraper.re_spaces " " (Scraper.title_option1 soup))).
Proof.
  cbv zeta. unfold Scraper.scrape_soup. cbn [title description].
  split; [apply tidy_normalised|]. split; [apply tidy_normalised|].
  intros Hne. unfold Scraper.title_option3, Scraper.title_option2.
  destruct (Scraper.title_option1 soup); [by destruct Hne|]. reflexivity.
Qed.

Lemma title_and_description_tidy_witness :
  title (Scraper.scrape_soup Samples.simple_join "u" "1" MoreSamples.gallery_soup)
  = "Wafer prober"%string.
Proof.
  rewrite (proj2 (proj2 (title_and_description_tidy Samples.simple_join "u" "1"
                           MoreSamples.gallery_soup))).
  - vm_compute. reflexivity.
  - vm_compute. discriminate.
Defined.

Lemma extract_table_value_rows_label (rows : list node) (label label' : string) :
  PyStr.lower label' = PyStr.lower label →
  Scraper.extract_table_value_rows rows label' = Scraper.extract_table_value_rows rows label.
Proof.
  intros Hl. induction rows as [|row rows IH]; [reflexivity|].
  cbn [Scraper.extract_table_value_rows]. rewrite Hl, IH. reflexivity.
Qed.

Lemma extract_table_value_rows_tidy (rows : list node) (label : string) :
  Shape.tidy (Scraper.extract_table_value_rows rows label) = true.
Proof.
  induction rows as [|row rows IH]; [reflexivity|].
  cbn [Scraper.extract_table_value_rows].
  destruct (Soup.find_all Scraper.is_cell row) as [|c0 [|c1 cells]]; try exact IH.
  cbv zeta. destruct (_ || _); [|exact IH].
  destruct (PyStr.truthy _); [apply tidy_clean_value | exact IH].
Qed.

(** X10.  [extract_table_value] returns a tidy string; the label counts
    only up to case; and the result is empty when no row has two cells. *)
Theorem extract_table_value_shape (soup : node) (label : string) :
  Shape.tidy (Scraper.extract_table_value soup label) = true
  ∧ (∀ label', PyStr.lower label' = PyStr.lower label →
       Scraper.extract_table_value soup label' = Scraper.extract_table_value soup label)
  ∧ (Forall (fun row => (length (Soup.find_all Scraper.is_cell row) < 2)%nat)
       (Soup.find_all (Soup.has_tag "tr") soup) →
     Scraper.extract_table_value soup label = ""%string).
Proof.
  unfold Scraper.extract_table_value. split; [apply extract_table_value_rows_tidy|].
  split; [intros label'; apply extract_table_value_rows_label|].
  induction 1 as [|row rows Hrow _ IH]; [reflexivity|].
  cbn [Scraper.extract_table_value_rows].
  destruct (Soup.find_all Scraper.is_cell row) as [|c0 [|c1 cells]]; try exact IH.
  simpl in Hrow. lia.
Qed.

Lemma extract_table_value_shape_witness :
  Scraper.extract_table_value Samples.table_soup "MODEL" = "X1"%string
  ∧ Scraper.extract_table_value Samples.empty_soup "model" = ""%string.
Proof.
  split.
  - rewrite (proj1 (proj2 (extract_table_value_shape Samples.table_soup "model")) "MODEL")
      by reflexivity.
    vm_compute. reflexivity.
  - apply (extract_table_value_shape Samples.empty_soup "model"). vm_compute. constructor.
Defined.

(* ===================================================================== *)
(** ** The identifiers read from the index                               *)
(* ===================================================================== *)

Lemma rmatch_lit {A : Type} (p : string) :
  ∀ (bol : bool) (s : string) (k : bool -> string -> option A),
    Re.rmatch (Re.lit p) bol s k
    = if PyStr.startswith p s
      then k (match p with EmptyString => bol | _ => false end) (PyStr.drop (PyStr.len p) s)
      else None.
Proof.
  induction p as [|c p IH]; intros bol s k; [by destruct s|].
  cbn [Re.lit Re.rmatch]. destruct s as [|c' s]; [reflexivity|].
  cbn [PyStr.startswith PyStr.len String.length PyStr.drop].
  destruct (Ascii.eqb c c'); [|reflexivity].
  rewrite IH. unfold PyStr.len. by destruct p.
Qed.

Lemma startswith_split (p s : string) :
  PyStr.startswith p s = true → s = (p ++ PyStr.drop (PyStr.len p) s)%string.
Proof.
  revert s. induction p as [|c p IH]; intros s; [by destruct s|].
  destruct s as [|c' s]; [discriminate|]. cbn [PyStr.startswith].
  destruct (Ascii.eqb c c') eqn:E; [|discriminate]. apply Ascii.eqb_eq in E as ->.
  intros H. cbn [PyStr.len String.length PyStr.drop].
  change (String c' p ++ ?x)%string with (String c' (p ++ x)%string).
  f_equal. by apply IH.
Qed.

Lemma take_while_digits (p : ascii -> bool) (t : string) :
  Shape.all_chars p (PyStr.take (String.length t - String.length (Shape.drop_while p t)) t)
  = true
  ∧ t = (PyStr.take (String.length t - String.length (Shape.drop_while p t)) t
         ++ Shape.drop_while p t)%string.
Proof.
  induction t as [|c t [IH1 IH2]]; [done|]. cbn [Shape.drop_while].
  destruct (p c) eqn:Hp.
  - pose proof (length_drop_while p t) as Hle.
    replace (String.length (String c t) - String.length (Shape.drop_while p t))%nat
      with (S (String.length t - String.length (Shape.drop_while p t))) by (simpl; lia).
    cbn [PyStr.take Shape.all_chars]. rewrite Hp, IH1. split; [reflexivity|].
    change (String c ?x ++ ?y)%string with (String c (x ++ y)%string). by rewrite <- IH2.
  - replace (String.length (String c t) - String.length (String c t))%nat with 0%nat by lia.
    done.
Qed.

Lemma take_app_prefix (p x : string) (n : nat) :
  PyStr.take (String.length p + n) (p ++ x)%string = (p ++ PyStr.take n x)%string.
Proof.
  induction p as [|c p IH]; [reflexivity|].
  change (String c p ++ ?y)%string with (String c (p ++ y)%string).
  cbn [String.length Nat.add PyStr.take]. by rewrite IH.
Qed.

Lemma length_append (s t : string) :
  String.length (s ++ t)%string = (String.length s + String.length t)%nat.
Proof.
  induction s as [|c s IH]; [reflexivity|].
  change (String c s ++ t)%string with (String c (s ++ t)%string). simpl. by rewrite IH.
Qed.

(** Where [re.search] finds a match, the subject splits into the text
    before, the match and the rest, and the match is anchored there. *)
Lemma search_aux_split (r : Re.regex) (s : string) :
  ∀ bol pre m post,
    Re.search_aux r bol s = Some (pre, m, post) →
    ∃ b s', s = (pre ++ s')%string
            ∧ Re.match_here r b s' = Some post
            ∧ m = PyStr.take (String.length s' - String.length post) s'.
Proof.
  induction s as [|c t IH]; intros bol pre m post; cbn [Re.search_aux].
  - destruct (Re.match_here r bol "") as [rest|] eqn:E; [|discriminate].
    intros [= <- <- <-]. by exists bol, ""%string.
  - destruct (Re.match_here r bol (String c t)) as [rest|] eqn:E.
    + intros [= <- <- <-]. by exists bol, (String c t).
    + destruct (Re.search_aux r false t) as [[[pre' m'] post']|] eqn:Es; [|discriminate].
      intros [= <- <- <-]. destruct (IH _ _ _ _ Es) as (b & s' & -> & Hm & ->).
      by exists b, s'.
Qed.

Lemma match_here_item_no (bol : bool) (s post : string) :
  Re.match_here Scraper.re_item_no bol s = Some post →
  ∃ c t, s = ("ItemNo=" ++ String c t)%string ∧ PyStr.isdigit c = true
         ∧ post = Shape.drop_while PyStr.isdigit t.
Proof.
  unfold Re.match_here, Scraper.re_item_no, Re.Plus, Re.digit.
  cbn [Re.rmatch]. rewrite rmatch_lit.
  destruct (PyStr.startswith "ItemNo=" s) eqn:Hs; [|discriminate].
  apply startswith_split in Hs.
  destruct (PyStr.drop (PyStr.len "ItemNo=") s) as [|c t]; [discriminate|].
  cbn [Re.rmatch]. destruct (PyStr.isdigit c) eqn:Hc; [|discriminate].
  pose proof (rmatch_star_chr PyStr.isdigit false t) as H. cbn [Re.rmatch] in H.
  rewrite H. intros [= <-]. by exists c, t.
Qed.

Lemma item_no_of_digits (href item_no : string) :
  Scraper.item_no_of href = Some item_no →
  item_no ≠ ""%string
  ∧ Shape.all_chars PyStr.isdigit item_no = true
  ∧ ∃ pre post, href = (pre ++ "ItemNo=" ++ item_no ++ post)%string
                ∧ Shape.drop_while PyStr.isdigit post = post.
Proof.
  unfold Scraper.item_no_of, Re.search.
  destruct (Re.search_aux _ _ _) as [[[pre m] post]|] eqn:E; [|discriminate].
  intros [= <-]. apply search_aux_split in E as (b & s' & -> & Hm & ->).
  apply match_here_item_no in Hm as (c & t & -> & Hc & ->).
  destruct (take_while_digits PyStr.isdigit t) as [Hd Ht].
  set (ds := PyStr.take (String.length t - String.length (Shape.drop_while PyStr.isdigit t)) t)
    in *.
  assert (Hlen : (String.length ("ItemNo=" ++ String c t)
                  - String.length (Shape.drop_while PyStr.isdigit t))%nat
                 = (String.length "ItemNo=" + S (String.length ds))%nat).
  { rewrite Ht at 1. rewrite !length_append. cbn [String.length].
    rewrite length_append. lia. }
  rewrite Hlen, take_app_prefix. cbn [PyStr.take].
  assert (Hds : PyStr.take (String.length ds) t = ds).
  { rewrite Ht at 1.
    replace (String.length ds) with (String.length ds + 0)%nat by lia.
    rewrite take_app_prefix. destruct (Shape.drop_while _ _); simpl; apply append_empty. }
  rewrite Hds.
  change (String c ds ≠ ""%string
          ∧ Shape.all_chars PyStr.isdigit (String c ds) = true
          ∧ ∃ pre0 post,
              (pre ++ "ItemNo=" ++ String c t)%string
              = (pre0 ++ "ItemNo=" ++ String c ds ++ post)%string
              ∧ Shape.drop_while PyStr.isdigit post = post).
  split; [discriminate|]. split; [simpl; by rewrite Hc, Hd|].
  exists pre, (Shape.drop_while PyStr.isdigit t). split.
  - do 2 f_equal. change (String c ds ++ ?x)%string with (String c (ds ++ x)%string).
    by rewrite <- Ht.
  - clear. induction t as [|c t IH]; [reflexivity|]. simpl.
    destruct (PyStr.isdigit c) eqn:E; [exact IH | simpl; by rewrite E].
Qed.

Lemma drop_while_all (p : ascii -> bool) (t : string) :
  Shape.all_chars p t = true → Shape.drop_while p t = ""%string.
Proof.
  induction t as [|c t IH]; [done|]. simpl.
  intros H. apply andb_prop in H as [-> H]. by apply IH.
Qed.

Lemma match_here_digits_all (bol : bool) (s : string) :
  s ≠ ""%string → Shape.all_chars PyStr.isdigit s = true →
  Re.match_here (Re.Plus Re.digit) bol s = Some ""%string.
Proof.
  intros Hne Hall. unfold Re.match_here, Re.Plus, Re.digit. cbn [Re.rmatch].
  destruct s as [|c t]; [by destruct Hne|].
  simpl in Hall. apply andb_prop in Hall as [Hc Ht]. rewrite Hc.
  pose proof (rmatch_star_chr PyStr.isdigit false t) as H. cbn [Re.rmatch] in H.
  rewrite H. by rewrite drop_while_all.
Qed.

Lemma match_here_digit_none (bol : bool) (post : string) :
  Shape.drop_while PyStr.isdigit post = post →
  Re.match_here Re.digit bol post = None.
Proof.
  unfold Re.match_here, Re.digit. cbn [Re.rmatch].
  destruct post as [|c t]; [reflexivity|]. cbn [Shape.drop_while].
  destruct (PyStr.isdigit c); [|reflexivity].
  intros H. pose proof (length_drop_while PyStr.isdigit t) as Hlen.
  rewrite H in Hlen. simpl in Hlen. lia.
Qed.

(** X11.  An identifier read from an anchor is a piece of the [href] that
    follows an occurrence of [ItemNo=]: it is not empty, the pattern [\d+]
    matches it from its first character to its last, and no character of
    the class [\d] follows it.  So every identifier that discovery returns
    is not empty and is matched in full by [\d+]. *)
Theorem discovered_identifiers_are_digits (get_soup : string -> option node)
    (max_items : option Z) (category_menuid : option string) :
  (∀ href item_no,
     Scraper.item_no_of href = Some item_no →
     item_no ≠ ""%string
     ∧ Re.match_here (Re.Plus Re.digit) true item_no = Some ""%string
     ∧ ∃ pre post, href = (pre ++ "ItemNo=" ++ item_no ++ post)%string
                   ∧ Re.match_here Re.digit false post = None)
  ∧ (∀ fuel l,
       Scraper.discover_listings get_soup max_items category_menuid fuel = Some l →
       Forall (fun item_no => item_no ≠ ""%string
                              ∧ Re.match_here (Re.Plus Re.digit) true item_no
                                = Some ""%string) l).
Proof.
  split.
  - intros href item_no H.
    destruct (item_no_of_digits _ _ H) as (Hne & Hd & pre & post & Hhref & Hpost).
    split; [exact Hne|]. split; [by apply match_here_digits_all|].
    exists pre, post. split; [exact Hhref | by apply match_here_digit_none].
  - intros fuel l Hl.
    destruct (discover_loop_first_seen get_soup max_items category_menuid fuel 0 l Hl)
      as (k & n & ->).
    apply Forall_forall. intros x Hx.
    assert (Hin : x ∈ Spec.first_seen (Spec.visited_ids get_soup category_menuid k))
      by (eapply elem_of_sublist; [exact Hx | apply sublist_take]).
    clear Hx.
    apply (proj1 (elem_of_first_seen _ _)) in Hin. unfold Spec.visited_ids in Hin.
    apply (proj1 (list_elem_of_In _ _)) in Hin.
    apply (proj1 (in_flat_map _ _ _)) in Hin as (j & _ & Hj).
    apply (proj2 (list_elem_of_In _ _)) in Hj. unfold Spec.page_ids, Spec.link_ids in Hj.
    apply (proj1 (list_elem_of_omap _ _ _)) in Hj as (link & _ & Hlink).
    destruct (item_no_of_digits _ _ Hlink) as (Hne & Hd & _).
    split; [exact Hne | by apply match_here_digits_all].
Qed.

Lemma discovered_identifiers_are_digits_witness :
  Scraper.item_no_of "iinfo.cfm?ItemNo=265103&x=1" = Some "265103"%string
  ∧ Re.match_here (Re.Plus Re.digit) true "265103" = Some ""%string.
Proof.
  assert (E : Scraper.item_no_of "iinfo.cfm?ItemNo=265103&x=1" = Some "265103"%string)
    by (vm_compute; reflexivity).
  split; [exact E|].
  apply (proj1 (discovered_identifiers_are_digits Samples.dead_site None None) _ _ E).
Defined.

(* ===================================================================== *)
(** ** Further properties of the registry handlers                       *)
(* ===================================================================== *)




(** X13.  Both exports answer 404 "Data not found" for an id without a
    stored result and 404 "No data to export" for an id whose stored
    result is the empty list, which [get_scraped_data] does deliver.
    Otherwise the JSON export delivers the stored records, and the CSV
    export renders one row of thirteen fields for every record, in the
    column order of the export, every column being a field of the
    record. *)
Theorem export_guards (to_csv : list string -> list (list string) -> string)
    (job_id : string) (reg : registry) :
  (Main.get_scraped_data job_id reg = HTTPException 404 "Data not found" →
   Handlers.export_json job_id reg = HTTPException 404 "Data not found"
   ∧ Handlers.export_csv to_csv job_id reg = HTTPException 404 "Data not found")
  ∧ (Main.get_scraped_data job_id reg = OK [] →
     Handlers.export_json job_id reg = HTTPException 404 "No data to export"
     ∧ Handlers.export_csv to_csv job_id reg = HTTPException 404 "No data to export")
  ∧ (∀ item data,
       Main.get_scraped_data job_id reg = OK (item :: data) →
       Handlers.export_json job_id reg
       = OK (Handlers.mk_download
               ("attachment; filename=surplus_equipment_" ++ job_id ++ ".json")%string
               (item :: data))
       ∧ ∃ rows,
           Handlers.export_csv to_csv job_id reg
           = OK (Handlers.mk_download
                   ("attachment; filename=surplus_equipment_" ++ job_id ++ ".csv")%string
                   (to_csv Handlers.columns_order rows))
           ∧ rows = map (fun r => [item_id r; title r; condition r; location r; category r;
                                   listing_type r; price r; manufacturer r; model r;
                                   year_of_manufacturer r; description r; pictures r; url r])
                        (item :: data)).
Proof.
  unfold Main.get_scraped_data, Handlers.export_json, Handlers.export_csv.
  destruct (scraped_data_store reg !! job_id) as [[|item data]|].
  - split; [discriminate|]. split; [done|]. discriminate.
  - split; [discriminate|]. split; [discriminate|].
    intros item' data' [= <- <-]. split; [reflexivity|].
    eexists. split; reflexivity.
  - split; [done|]. split; discriminate.
Qed.

Lemma export_guards_witness :
  Handlers.export_json "empty" MoreSamples.two_job_registry
  = HTTPException 404 "No data to export"
  ∧ Handlers.export_csv MoreSamples.plain_csv "missing" MoreSamples.two_job_registry
    = HTTPException 404 "Data not found"
  ∧ Handlers.export_json "full" MoreSamples.two_job_registry
    = OK (Handlers.mk_download "attachment; filename=surplus_equipment_full.json"
            [MoreSamples.some_record]).
Proof.
  pose proof (export_guards MoreSamples.plain_csv "empty" MoreSamples.two_job_registry)
    as (_ & Hempty & _).
  pose proof (export_guards MoreSamples.plain_csv "missing" MoreSamples.two_job_registry)
    as (Hmissing & _).
  pose proof (export_guards MoreSamples.plain_csv "full" MoreSamples.two_job_registry)
    as (_ & _ & Hfull).
  split; [apply Hempty; vm_compute; reflexivity|].
  split; [apply Hmissing; vm_compute; reflexivity|].
  apply (Hfull MoreSamples.some_record []). vm_compute. reflexivity.
Defined.

(** X14.  [list_jobs] gives one entry for every id that has a status, and
    for no other id: its status is the ["status"] entry of the status
    dictionary, "unknown" when that has none, and its count is the stored
    list of records itself when the id has a result, and the number 0 when
    it has none. *)
Theorem list_jobs_entries (reg : registry) :
  length (Handlers.list_jobs reg) = size (scraping_status reg)
  ∧ NoDup (map Handlers.info_job_id (Handlers.list_jobs reg))
  ∧ (∀ info,
       info ∈ Handlers.list_jobs reg
       ↔ ∃ d, scraping_status reg !! Handlers.info_job_id info = Some d
              ∧ Handlers.info_status info = default (VStr "unknown") (d !! "status")
              ∧ Handlers.info_count info
                = match scraped_data_store reg !! Handlers.info_job_id info with
                  | Some data => Handlers.CountList data
                  | None => Handlers.CountInt 0
                  end).
Proof.
  unfold Handlers.list_jobs. split; [by rewrite length_map, length_map_to_list|]. split.
  - rewrite map_map. cbn [Handlers.job_entry Handlers.info_job_id].
    apply NoDup_fst_map_to_list.
  - intros info. rewrite list_elem_of_fmap. split.
    + intros ([job_id d] & -> & Hin). apply elem_of_map_to_list in Hin.
      exists d. cbn. split; [exact Hin|]. split; [reflexivity|].
      unfold Handlers.job_count. by destruct (scraped_data_store reg !! job_id).
    + intros (d & Hd & Hs & Hc). exists (Handlers.info_job_id info, d).
      split; [|by apply elem_of_map_to_list].
      destruct info as [job_id status count]. cbn in *. subst status count.
      unfold Handlers.job_entry, Handlers.job_count. cbn.
      by destruct (scraped_data_store reg !! job_id).
Qed.

Lemma list_jobs_entries_witness :
  Handlers.mk_job_info "empty" (VStr "unknown") (Handlers.CountList [])
  ∈ Handlers.list_jobs
      (Main.set_status "empty" ∅ (Main.set_data "empty" [] (mk_registry ∅ ∅))).
Proof.
  apply (list_jobs_entries
           (Main.set_status "empty" ∅ (Main.set_data "empty" [] (mk_registry ∅ ∅)))).
  exists ∅. vm_compute. by repeat split.
Defined.

Lemma join_cons_nonempty (sep w : string) (ws : list string) :
  w ≠ ""%string → PyStr.join sep (w :: ws) ≠ ""%string.
Proof.
  intros Hw. unfold PyStr.join. cbn [String.concat].
  destruct ws; [exact Hw|]. destruct w; [by destruct Hw | discriminate].
Qed.

Lemma category_filter (texts : list string) :
  filter (fun c => negb (String.eqb c "View" || String.eqb c "Search-by-Specs") = true)
    (filter (fun c => PyStr.truthy c = true) texts)
  = filter (fun c => c ≠ ""%string ∧ c ≠ "View"%string ∧ c ≠ "Search-by-Specs"%string) texts.
Proof.
  induction texts as [|c texts IH]; [reflexivity|].
  destruct c as [|a t].
  - rewrite (filter_cons_False _ ""%string) by (by intros ?).
    by rewrite (filter_cons_False _ ""%string) by (by intros [? _]).
  - rewrite (filter_cons_True _ (String a t)) by reflexivity.
    destruct (String.eqb (String a t) "View" || String.eqb (String a t) "Search-by-Specs")
      eqn:Hex.
    + rewrite (filter_cons_False _ (String a t))
        by (intros H; rewrite Hex in H; discriminate).
      rewrite (filter_cons_False (fun c0 : string => _ ∧ _ ∧ _) (String a t)); [exact IH|].
      intros (_ & H1 & H2).
      apply orb_prop in Hex as [E|E]; apply String.eqb_eq in E; congruence.
    + rewrite (filter_cons_True _ (String a t)) by (by rewrite Hex).
      apply orb_false_elim in Hex as [E1 E2]. apply String.eqb_neq in E1, E2.
      rewrite (filter_cons_True (fun c0 : string => _ ∧ _ ∧ _) (String a t)) by done.
      by rewrite IH.
Qed.

(** X15.  The category of a record is the texts of the [a.menubar] links,
    without the empty ones and without "View" and "Search-by-Specs", in
    document order and joined by " > "; it is empty exactly when no link
    is left. *)
Theorem category_of_links (urljoin : string -> string -> string)
    (listing_url item_no : string) (soup : node) :
  let r := Scraper.scrape_soup urljoin listing_url item_no soup in
  let kept (c : string) :=
    c ≠ ""%string ∧ c ≠ "View"%string ∧ c ≠ "Search-by-Specs"%string in
  category r
  = PyStr.join " > "
      (filter kept (map Soup.get_text (Soup.find_all (Soup.sel "a" "menubar") soup)))
  ∧ (category r = ""%string ↔ Spec.no_category_source soup).
Proof.
  cbv zeta. unfold Scraper.scrape_soup. cbn [category].
  unfold Scraper.extract_category, Spec.no_category_source, Scraper.extract_text. cbv zeta.
  change (map (fun a : node => Soup.get_text a)) with (map Soup.get_text).
  rewrite category_filter.
  induction (Soup.find_all (Soup.sel "a" "menubar") soup) as [|a links [IH1 IH2]].
  - split; [reflexivity|]. split; [constructor | reflexivity].
  - cbn [map]. rewrite Forall_cons. cbv beta.
    destruct (decide (Soup.get_text a ≠ ""%string ∧ Soup.get_text a ≠ "View"%string
                      ∧ Soup.get_text a ≠ "Search-by-Specs"%string)) as [Hk|Hk].
    + rewrite filter_cons_True by exact Hk. split; [reflexivity|]. split.
      * intros H. apply join_cons_nonempty in H; [done | apply Hk].
      * intros [[H|[H|H]] _]; destruct Hk as (H1 & H2 & H3); congruence.
    + rewrite filter_cons_False by exact Hk. split; [exact IH1|]. rewrite IH2.
      split; [|by intros [_ H]]. intros H. split; [|exact H].
      destruct (decide (Soup.get_text a = ""%string)) as [?|H1]; [by left|].
      destruct (decide (Soup.get_text a = "View"%string)) as [?|H2]; [right; by left|].
      destruct (decide (Soup.get_text a = "Search-by-Specs"%string)) as [?|H3];
        [right; by right|].
      by destruct Hk.
Qed.

Lemma category_of_links_witness :
  category (Scraper.scrape_soup Samples.simple_join "u" "1" MoreSamples.gallery_soup)
  = "Test Equipment"%string
  ∧ category (Scraper.scrape_soup Samples.simple_join "u" "1" Samples.empty_soup) = ""%string.
Proof.
  split.
  - rewrite (proj1 (category_of_links Samples.simple_join "u" "1" MoreSamples.gallery_soup)).
    vm_compute. reflexivity.
  - apply (category_of_links Samples.simple_join "u" "1" Samples.empty_soup).
    vm_compute. constructor.
Defined.
